(** * Municipal issue detector: the response normaliser of [model.py]

    A shallow embedding of [MunicipalIssueDetector] and
    [detect_municipal_issue], and the properties of the path that turns the
    text answered by the vision model into a report, a "no issue" message or
    an error message.

    Conventions.
    - A Python [str] is a [string]: a sequence of 8-bit characters, read as
      the code points 0..255.  [strip] and [lower] follow what Python does on
      those code points.
    - A Python object that can come out of [json.loads] is a [value]; a
      [dict] with [str] keys is a [gmap string value].
    - A call that can raise returns an [outcome]; [try]/[except] is a match
      on it.  Exceptions are the instances of Python's [Exception], which is
      what both handlers of the source catch.
    - The system clock, the environment, the HTTP client, the image library
      and the model service are collaborators: they are fields of a [world],
      and every use of one is recorded in a trace of [event]s.
    - [json.loads] belongs to Python's library.  The normaliser takes the
      decoder as an argument; [Json.loads] is a decoder written after the
      library's, used to run the normaliser on concrete texts. *)

From Stdlib Require Import String Ascii ZArith List Lia.
From stdpp Require Import gmap strings list fin_maps.

Set Warnings "-register-all".
Open Scope string_scope.

(** ** Text: the operations of [str] the source uses *)

Module Text.

Definition dquote : ascii := "034"%char.
Definition newline : ascii := "010"%char.

(** [str.isspace] on one code point below 256: TAB..CR, FS..US, the space,
    NEL (0x85) and the no-break space (0xA0). *)
Definition isspace (c : ascii) : bool :=
  let n := nat_of_ascii c in
  (((9 <=? n) && (n <=? 13)) || ((28 <=? n) && (n <=? 32))
   || (n =? 133) || (n =? 160))%nat.

Fixpoint lstrip (s : string) : string :=
  match s with
  | String c s' => if isspace c then lstrip s' else s
  | EmptyString => EmptyString
  end.

Fixpoint rstrip (s : string) : string :=
  match s with
  | String c s' =>
      match rstrip s' with
      | EmptyString => if isspace c then EmptyString else String c EmptyString
      | r => String c r
      end
  | EmptyString => EmptyString
  end.

(** [s.strip()] *)
Definition strip (s : string) : string := rstrip (lstrip s).

(** [str.lower] on one code point below 256: the letters A..Z and the
    capital letters of Latin-1 (0xC0..0xDE but the multiplication sign
    0xD7) move up by 32. *)
Definition lower_char (c : ascii) : ascii :=
  let n := nat_of_ascii c in
  if (((65 <=? n) && (n <=? 90))
      || ((192 <=? n) && (n <=? 222) && negb (n =? 215)))%nat
  then ascii_of_nat (n + 32) else c.

(** [s.lower()] *)
Fixpoint lower (s : string) : string :=
  match s with
  | String c s' => String (lower_char c) (lower s')
  | EmptyString => EmptyString
  end.

(** [s.startswith(p)] *)
Definition startswith (p s : string) : bool := String.prefix p s.

(** [s[n:]] for [n >= 0] *)
Fixpoint slice_from (n : nat) (s : string) : string :=
  match n, s with
  | S n', String _ s' => slice_from n' s'
  | _, _ => s
  end.

(** [s[:n]] for [n >= 0] *)
Definition slice_to (n : nat) (s : string) : string := substring 0 n s.

(** [s[:-n]] for [n > 0]: all but the last [n] characters, nothing left
    when [s] is shorter. *)
Definition slice_to_neg (n : nat) (s : string) : string :=
  substring 0 (String.length s - n) s.

(** [s.endswith(p)] *)
Definition endswith (p s : string) : bool :=
  (String.length p <=? String.length s)%nat
  && String.eqb (slice_from (String.length s - String.length p) s) p.

(** [p in s]: [p] occurs in [s] as a run of consecutive characters. *)
Fixpoint contains (p s : string) : bool :=
  String.prefix p s
  || match s with
     | String _ s' => contains p s'
     | EmptyString => false
     end.

(** ["p" * n] *)
Fixpoint repeat_str (p : string) (n : nat) : string :=
  match n with
  | 0 => EmptyString
  | S n' => p +:+ repeat_str p n'
  end.

(** A text between double quotes, to write JSON texts down. *)
Definition quoted (s : string) : string :=
  String dquote (s +:+ String dquote EmptyString).

End Text.
Import Text.

(** ** Python values and exceptions *)

(** The objects [json.loads] builds.  A [float] is kept as the text the
    decoder read it from: the source never computes with one. *)
Inductive value : Type :=
  | VNone
  | VBool (b : bool)
  | VInt (z : Z)
  | VFloat (lexeme : string)
  | VStr (s : string)
  | VList (l : list value)
  | VDict (d : gmap string value).

(** The instances of [Exception] the call chain can see.  [OtherError] stands
    for what the collaborators raise (transport, HTTP status, image decoding,
    quota, ...), with its message. *)
Inductive exn : Type :=
  | JSONDecodeError (msg : string)
  | NameError (name : string)
  | KeyError (key : string)
  | TypeError (msg : string)
  | ValueError (msg : string)
  | RecursionError
  | OtherError (msg : string).

(** [str(e)] *)
Definition str_exn (e : exn) : string :=
  match e with
  | JSONDecodeError msg => msg
  | NameError name => "name '" +:+ name +:+ "' is not defined"
  | KeyError key => "'" +:+ key +:+ "'"
  | TypeError msg => msg
  | ValueError msg => msg
  | RecursionError => "maximum recursion depth exceeded"
  | OtherError msg => msg
  end.

Inductive outcome (A : Type) : Type :=
  | Returned (a : A)
  | Raised (e : exn).
Arguments Returned {A} a.
Arguments Raised {A} e.

(** Sequencing: the first exception raised ends the computation. *)
Definition bind {A B} (m : outcome A) (k : A → outcome B) : outcome B :=
  match m with
  | Returned a => k a
  | Raised e => Raised e
  end.

Declare Scope outcome_scope.
Delimit Scope outcome_scope with outcome.
Notation "x <- m ;; k" := (bind m (λ x, k))
  (at level 100, m at next level, right associativity) : outcome_scope.
Notation "'let*' ' pat := m 'in' k" := (bind m (λ pat, k))
  (at level 100, pat pattern, m at level 200, right associativity)
  : outcome_scope.
Open Scope outcome_scope.

(** [try: body  except json.JSONDecodeError: handler]: any other exception
    of the body goes through. *)
Definition except_JSONDecodeError {A} (body handler : outcome A) : outcome A :=
  match body with
  | Raised (JSONDecodeError _) => handler
  | other => other
  end.

(** The name of the type of a value, as error messages print it. *)
Definition type_name (v : value) : string :=
  match v with
  | VNone => "NoneType"
  | VBool _ => "bool"
  | VInt _ => "int"
  | VFloat _ => "float"
  | VStr _ => "str"
  | VList _ => "list"
  | VDict _ => "dict"
  end.

(** [v == s] for a [str] [s]: only an equal [str] is equal to it. *)
Definition eq_str (v : value) (s : string) : bool :=
  match v with
  | VStr s' => String.eqb s' s
  | _ => false
  end.

(** [key in obj] for a [str] key: a key of a dict, an element of a list, a
    part of a str; the other types are not containers.  The messages of the
    [TypeError]s here and below are worded as CPython 3.11 to 3.13 word
    them. *)
Definition py_contains (obj : value) (key : string) : outcome bool :=
  match obj with
  | VDict d => Returned (bool_decide (is_Some (d !! key)))
  | VList l => Returned (existsb (λ v, eq_str v key) l)
  | VStr s => Returned (contains key s)
  | _ => Raised (TypeError
           ("argument of type '" +:+ type_name obj +:+ "' is not iterable"))
  end.

(** [obj[key]] for a [str] key. *)
Definition py_getitem (obj : value) (key : string) : outcome value :=
  match obj with
  | VDict d =>
      match d !! key with
      | Some v => Returned v
      | None => Raised (KeyError key)
      end
  | VList _ => Raised (TypeError "list indices must be integers or slices, not str")
  | VStr _ => Raised (TypeError "string indices must be integers, not 'str'")
  | _ => Raised (TypeError ("'" +:+ type_name obj +:+ "' object is not subscriptable"))
  end.

(** [obj[key] = v] for a [str] key; the object after the assignment. *)
Definition py_setitem (obj : value) (key : string) (v : value) : outcome value :=
  match obj with
  | VDict d => Returned (VDict (<[key := v]> d))
  | VList _ => Raised (TypeError "list indices must be integers or slices, not str")
  | _ => Raised (TypeError
           ("'" +:+ type_name obj +:+ "' object does not support item assignment"))
  end.

(** [v in l] for a list of [str]. *)
Definition in_strs (v : value) (l : list string) : bool :=
  existsb (eq_str v) l.

(** ** The tables of [MunicipalIssueDetector.__init__] *)

(** [self.departments]: each department with its keyword hints, in the order
    of the source. *)
Definition departments : list (string * list string) :=
  [ ("FIRE", ["fire"; "smoke"; "burning"; "flames"; "emergency"; "rescue";
              "explosion"; "blaze"; "scorch"; "alarm"; "firefighter"]);
    ("WATER", ["water"; "flooding"; "leak"; "pipe"; "drainage"; "sewer";
               "overflow"; "wet road"; "sewage"; "contaminated water";
               "broken pipe"; "manhole"]);
    ("ELECTRIC", ["electric"; "power"; "cable"; "wire"; "pole"; "outage";
                  "transformer"; "short circuit"; "live wire"; "street light";
                  "spark"]);
    ("ROADS", ["road"; "pothole"; "pavement"; "street"; "traffic"; "sign";
               "marking"; "speed breaker"; "signal"; "barrier"; "crack";
               "manhole cover"]);
    ("WASTE", ["garbage"; "trash"; "waste"; "dumpster"; "litter"; "recycling";
               "overflowing bin"; "illegal dumping"; "dead animal";
               "open garbage"]);
    ("PARKS", ["park"; "tree"; "garden"; "playground"; "bench"; "maintenance";
               "broken swing"; "fallen tree"; "damaged slide"; "open well"]);
    ("BUILDING", ["building"; "construction"; "structure"; "violation";
                  "permit"; "broken wall"; "collapsed"; "unsafe building";
                  "crack"; "illegal work"]);
    ("HEALTH", ["health"; "sanitation"; "pest"; "contamination"; "safety";
                "mosquito"; "dirty toilet"; "open defecation"; "septic tank";
                "infection"]);
    ("TRANSPORT", ["bus stop"; "shelter damage"; "vehicle damage";
                   "rail track"; "sign board"; "auto stand";
                   "transport board"; "public bus"]);
    ("TRAFFIC", ["congestion"; "signal not working"; "road block";
                 "illegal parking"; "no entry"; "wrong side"; "accident"]);
    ("EDUCATION", ["school"; "playground"; "broken desk"; "unsafe building";
                   "dirty classroom"; "toilet school"; "open wiring"]);
    ("CIVIC INFRASTRUCTURE", ["open manhole"; "unfinished construction";
                              "broken tap"; "non-functional toilet";
                              "public facility broken"; "leaking roof"]);
    ("COMMUNICATION", ["telecom pole"; "fiber wire"; "damaged antenna";
                       "communication wire"; "internet cable";
                       "broken signal tower"]);
    ("DISASTER RELIEF", ["earthquake"; "collapsed building"; "flood";
                         "waterlogging"; "relief camp"; "emergency shelter";
                         "rescue operation"]) ].

(** [self.priority_levels] *)
Definition priority_levels : list (string * string) :=
  [ ("CRITICAL", "Immediate attention required - public safety risk");
    ("HIGH", "Urgent - should be addressed within 24 hours");
    ("MEDIUM", "Important - should be addressed within 1 week");
    ("LOW", "Minor issue - can be scheduled for routine maintenance") ].

(** [list(self.departments.keys())] and [list(self.priority_levels.keys())] *)
Definition valid_departments : list string := fst <$> departments.
Definition valid_priorities : list string := fst <$> priority_levels.

(** The names bound at the top level of [model.py] by its imports,
    assignments, class and function definitions. *)
Definition module_globals : list string :=
  [ "genai"; "json"; "base64"; "Image"; "io"; "os"; "load_dotenv"; "Path";
    "requests"; "Dict"; "Any"; "Union"; "logging"; "logger"; "env_path";
    "MunicipalIssueDetector"; "detect_municipal_issue" ].

(** Reading a name that is not local to the running function: it is looked
    up among the globals of the module (no built-in is called [datetime]),
    and the read raises [NameError] when the name is not there. *)
Definition load_global (globals : list string) (name : string) : outcome unit :=
  if bool_decide (name ∈ globals) then Returned () else Raised (NameError name).

Definition NON_CIVIC_ISSUE : string := "NON_CIVIC_ISSUE".

(** The text returned when no municipal issue is recognised. *)
Definition no_issue_message : string :=
  "No Municipal Issue Detected - This appears to be a non-civic matter. Please upload images of infrastructure problems, public safety concerns, or municipal service issues.".

(** The phrases looked for in an answer that is not JSON. *)
Definition negative_keywords : list string :=
  [ "no municipal"; "no civic"; "not a municipal"; "personal item";
    "non-civic" ].

(** ** The normaliser *)

Section Normaliser.

(** [json.loads], and [datetime.now().isoformat()] at the time of the
    call. *)
Variable json_loads : string → outcome value.
Variable now : string.

(** The loop over [required_fields]. *)
Fixpoint ensure_fields (fields : list string) (result : value) : outcome value :=
  match fields with
  | [] => Returned result
  | field :: rest =>
      present <- py_contains result field;;
      result <- (if present then Returned result
                 else py_setitem result field (VStr "UNKNOWN"));;
      ensure_fields rest result
  end.

(** [if result[key] not in valid: result[key] = fallback] *)
Definition coerce (key : string) (valid : list string) (fallback : string)
    (result : value) : outcome value :=
  v <- py_getitem result key;;
  if in_strs v valid then Returned result
  else py_setitem result key (VStr fallback).

(** [_validate_and_enhance_result(self, result)].  [datetime] is imported
    inside this function, so the name is local here. *)
Definition _validate_and_enhance_result (result : value) : outcome value :=
  result <- ensure_fields ["department"; "priority"; "description"] result;;
  result <- coerce "department" valid_departments "BUILDING" result;;
  result <- coerce "priority" valid_priorities "MEDIUM" result;;
  result <- py_setitem result "timestamp" (VStr now);;
  result <- py_setitem result "status" (VStr "PENDING");;
  Returned result.

(** The value of the [description] entry of the fallback record. *)
Definition fallback_description (raw_response : string) : string :=
  if (200 <? String.length raw_response)%nat
  then slice_to 200 raw_response +:+ "..."
  else raw_response.

(** The dict display of [_create_fallback_response], once every entry has
    a value. *)
Definition fallback_record (raw_response : string) : gmap string value :=
  list_to_map
    [ ("department", VStr "BUILDING");
      ("priority", VStr "MEDIUM");
      ("description", VStr (fallback_description raw_response));
      ("location_details", VStr "Not specified");
      ("recommended_action", VStr "Manual review required");
      ("safety_concern", VStr "Unknown");
      ("confidence_score", VFloat "0.5");
      ("timestamp", VStr now);
      ("status", VStr "PENDING");
      ("note", VStr "Fallback response - manual review recommended") ].

(** [_create_fallback_response(self, raw_response)] run in a module whose
    top level binds [globals].  The entries of the display are evaluated
    in order; the eighth reads the name [datetime], which this function
    does not bind. *)
Definition create_fallback_response_in (globals : list string)
    (raw_response : string) : outcome value :=
  _ <- load_global globals "datetime";;
  Returned (VDict (fallback_record raw_response)).

(** [_create_fallback_response] in [model.py] as it is. *)
Definition _create_fallback_response (raw_response : string) : outcome value :=
  create_fallback_response_in module_globals raw_response.

(** The two fence removals before [json.loads]. *)
Definition strip_fences (response_text : string) : string :=
  let response_text :=
    if startswith "```json" response_text
    then slice_from 7 response_text else response_text in
  if endswith "```" response_text
  then slice_to_neg 3 response_text else response_text.

(** [any(keyword in response.text.lower() for keyword in [...])] *)
Definition negative_signal (text : string) : bool :=
  existsb (λ keyword, contains keyword (lower text)) negative_keywords.

(** The inner [try] of [analyze_image], from the text of the response to
    what [analyze_image] returns or to the exception that leaves the
    block.  [text] is [response.text]. *)
Definition normalize (text : string) : outcome value :=
  let response_text := strip text in
  if String.eqb response_text NON_CIVIC_ISSUE
     || contains NON_CIVIC_ISSUE response_text
  then Returned (VStr no_issue_message)
  else
    except_JSONDecodeError
      (result <- json_loads (strip_fences response_text);;
       _validate_and_enhance_result result)
      (if negative_signal text then Returned (VStr no_issue_message)
       else _create_fallback_response text).

End Normaliser.

(** ** A JSON decoder after Python's [json] module

    [Json.loads] follows [json.loads] on a [str]: [JSONDecoder.decode], the
    scanner [scan_once], [JSONObject], [JSONArray], [scanstring] in strict
    mode and the number pattern.  What it leaves out: the position that the
    library appends to the message of a [JSONDecodeError] (the source only
    logs it), the limit of the interpreter on the number of digits of an
    [int] and on the depth of the recursion, and the [\u] escapes that denote
    a code point above 255, which no [string] of this development can hold
    (they end the decoding with [OtherError]). *)

Module Json.

Definition is_whitespace (c : ascii) : bool :=
  let n := nat_of_ascii c in
  ((n =? 32) || (n =? 9) || (n =? 10) || (n =? 13))%nat.

(** [WHITESPACE.match(s, idx).end()] *)
Fixpoint skip_whitespace (s : string) : string :=
  match s with
  | String c s' => if is_whitespace c then skip_whitespace s' else s
  | EmptyString => EmptyString
  end.

Definition is_digit (c : ascii) : bool :=
  let n := nat_of_ascii c in ((48 <=? n) && (n <=? 57))%nat.

(** The longest run of digits at the start of [s], and what follows. *)
Fixpoint digits (s : string) : string * string :=
  match s with
  | String c s' =>
      if is_digit c then let '(ds, rest) := digits s' in (String c ds, rest)
      else (EmptyString, s)
  | EmptyString => (EmptyString, EmptyString)
  end.

Definition hex_digit (c : ascii) : option nat :=
  let n := nat_of_ascii c in
  if ((48 <=? n) && (n <=? 57))%nat then Some (n - 48)
  else if ((65 <=? n) && (n <=? 70))%nat then Some (n - 55)
  else if ((97 <=? n) && (n <=? 102))%nat then Some (n - 87)
  else None.

Definition hex4 (a b c d : ascii) : option nat :=
  match hex_digit a, hex_digit b, hex_digit c, hex_digit d with
  | Some x, Some y, Some z, Some w => Some (((x * 16 + y) * 16 + z) * 16 + w)
  | _, _, _, _ => None
  end.

(** The character an escape letter stands for ([BACKSLASH] of the
    library). *)
Definition escape (c : ascii) : option ascii :=
  if Ascii.eqb c dquote then Some dquote
  else if Ascii.eqb c "\" then Some "\"%char
  else if Ascii.eqb c "/" then Some "/"%char
  else if Ascii.eqb c "b" then Some "008"%char
  else if Ascii.eqb c "f" then Some "012"%char
  else if Ascii.eqb c "n" then Some "010"%char
  else if Ascii.eqb c "r" then Some "013"%char
  else if Ascii.eqb c "t" then Some "009"%char
  else None.

(** [scanstring(s, end, strict=True)], [s] being the text after the
    opening quote: the decoded string and the text after the closing
    quote. *)
Fixpoint scanstring (s : string) : outcome (string * string) :=
  match s with
  | EmptyString => Raised (JSONDecodeError "Unterminated string starting at")
  | String c rest =>
      if Ascii.eqb c dquote then Returned (EmptyString, rest)
      else if Ascii.eqb c "\" then
        match rest with
        | EmptyString => Raised (JSONDecodeError "Unterminated string starting at")
        | String e rest' =>
            if Ascii.eqb e "u" then
              match rest' with
              | String h1 (String h2 (String h3 (String h4 rest''))) =>
                  match hex4 h1 h2 h3 h4 with
                  | Some n =>
                      if (n <? 256)%nat then
                        let* '(str, after) := scanstring rest'' in
                        Returned (String (ascii_of_nat n) str, after)
                      else Raised (OtherError "code point above 255")
                  | None => Raised (JSONDecodeError "Invalid \uXXXX escape")
                  end
              | _ => Raised (JSONDecodeError "Invalid \uXXXX escape")
              end
            else
              match escape e with
              | Some x =>
                  let* '(str, after) := scanstring rest' in
                  Returned (String x str, after)
              | None => Raised (JSONDecodeError "Invalid \escape")
              end
        end
      else if (nat_of_ascii c <? 32)%nat then
        Raised (JSONDecodeError "Invalid control character at")
      else
        let* '(str, after) := scanstring rest in
        Returned (String c str, after)
  end.

(** [int(integer)] for a run of digits. *)
Definition int_of_digits (ds : string) : Z :=
  fold_left (λ acc c, acc * 10 + Z.of_nat (nat_of_ascii c - 48))%Z
            (list_ascii_of_string ds) 0%Z.

(** The text after the character [c], when [s] starts with it. *)
Definition expect (c : ascii) (s : string) : option string :=
  match s with
  | String c' rest => if Ascii.eqb c' c then Some rest else None
  | EmptyString => None
  end.

(** [NUMBER_RE.match]: an optional minus sign, then 0 or a run of digits
    that does not start with 0; an optional fraction, a dot and at least
    one digit; an optional exponent, e or E, an optional sign and at least
    one digit.  The result is an [int] when there is neither fraction nor
    exponent, and a [float] otherwise. *)
Definition match_number (s : string) : option (value * string) :=
  let '(sign, s1) :=
    match expect "-" s with
    | Some s' => ("-", s')
    | None => (EmptyString, s)
    end in
  let integer :=
    match s1 with
    | String c s2 =>
        if Ascii.eqb c "0" then Some ("0", s2)
        else if is_digit c then
          let '(ds, rest) := digits s2 in Some (String c ds, rest)
        else None
    | EmptyString => None
    end in
  match integer with
  | None => None
  | Some (int_digits, s3) =>
      let '(frac, s4) :=
        match expect "." s3 with
        | Some s' =>
            match digits s' with
            | (EmptyString, _) => (EmptyString, s3)
            | (ds, rest) => ("." +:+ ds, rest)
            end
        | None => (EmptyString, s3)
        end in
      let '(exp, s5) :=
        match s4 with
        | String e s' =>
            if Ascii.eqb e "e" || Ascii.eqb e "E" then
              let '(esign, s'') :=
                match expect "-" s', expect "+" s' with
                | Some t, _ => ("-", t)
                | None, Some t => ("+", t)
                | None, None => (EmptyString, s')
                end in
              match digits s'' with
              | (EmptyString, _) => (EmptyString, s4)
              | (ds, rest) => (String e (esign +:+ ds), rest)
              end
            else (EmptyString, s4)
        | EmptyString => (EmptyString, s4)
        end in
      match frac, exp with
      | EmptyString, EmptyString =>
          let n := int_of_digits int_digits in
          Some (VInt (if String.eqb sign "-" then - n else n)%Z, s5)
      | _, _ => Some (VFloat (sign +:+ int_digits +:+ frac +:+ exp), s5)
      end
  end.

(** A constant [word] at the start of [s]. *)
Definition literal (word : string) (v : value) (s : string)
    : option (value * string) :=
  if String.prefix word s then Some (v, slice_from (String.length word) s)
  else None.

(** [scan_once], with [JSONObject] and [JSONArray] from their first member
    on.  [fuel] bounds the number of nested calls; [loads] gives enough of
    it for any text ([loads_never_out_of_fuel]). *)
Fixpoint scan_once (fuel : nat) (s : string) : outcome (value * string) :=
  match fuel with
  | 0 => Raised RecursionError
  | S fuel =>
      match s with
      | EmptyString => Raised (JSONDecodeError "Expecting value")
      | String c rest =>
          if Ascii.eqb c dquote then
            let* '(str, after) := scanstring rest in
            Returned (VStr str, after)
          else if Ascii.eqb c "{" then
            match expect "}" (skip_whitespace rest) with
            | Some after => Returned (VDict ∅, after)
            | None => object_members fuel ∅ (skip_whitespace rest)
            end
          else if Ascii.eqb c "[" then
            match expect "]" (skip_whitespace rest) with
            | Some after => Returned (VList [], after)
            | None => array_elements fuel [] (skip_whitespace rest)
            end
          else
            match literal "null" VNone s with Some r => Returned r | None =>
            match literal "true" (VBool true) s with Some r => Returned r | None =>
            match literal "false" (VBool false) s with Some r => Returned r | None =>
            match match_number s with Some r => Returned r | None =>
            match literal "NaN" (VFloat "NaN") s with Some r => Returned r | None =>
            match literal "Infinity" (VFloat "Infinity") s with Some r => Returned r | None =>
            match literal "-Infinity" (VFloat "-Infinity") s with Some r => Returned r | None =>
            Raised (JSONDecodeError "Expecting value")
            end end end end end end end
      end
  end

with object_members (fuel : nat) (pairs : gmap string value) (s : string)
    : outcome (value * string) :=
  match fuel with
  | 0 => Raised RecursionError
  | S fuel =>
      match expect dquote s with
      | Some rest =>
          let* '(key, after) := scanstring rest in
          match expect ":" (skip_whitespace after) with
          | Some after =>
              let* '(v, after) := scan_once fuel (skip_whitespace after) in
              let pairs := <[key := v]> pairs in
              match expect "}" (skip_whitespace after),
                    expect "," (skip_whitespace after) with
              | Some after, _ => Returned (VDict pairs, after)
              | None, Some after =>
                  object_members fuel pairs (skip_whitespace after)
              | None, None =>
                  Raised (JSONDecodeError "Expecting ',' delimiter")
              end
          | None => Raised (JSONDecodeError "Expecting ':' delimiter")
          end
      | None =>
          Raised (JSONDecodeError
            "Expecting property name enclosed in double quotes")
      end
  end

with array_elements (fuel : nat) (values : list value) (s : string)
    : outcome (value * string) :=
  match fuel with
  | 0 => Raised RecursionError
  | S fuel =>
      let* '(v, after) := scan_once fuel s in
      let values := (values ++ [v])%list in
      match expect "]" (skip_whitespace after),
            expect "," (skip_whitespace after) with
      | Some after, _ => Returned (VList values, after)
      | None, Some after => array_elements fuel values (skip_whitespace after)
      | None, None => Raised (JSONDecodeError "Expecting ',' delimiter")
      end
  end.

(** [json.loads(s)]: one value between optional whitespace, and nothing
    else. *)
Definition loads (s : string) : outcome value :=
  let* '(obj, after) :=
    scan_once (S (2 * String.length s)) (skip_whitespace s) in
  match skip_whitespace after with
  | EmptyString => Returned obj
  | _ => Raised (JSONDecodeError "Extra data")
  end.

End Json.

(** ** The collaborators and the analysis call *)

(** A decoded picture: its [mode] and what it shows. *)
Record image := { mode : string; picture : nat }.

(** What [requests.get] returns. *)
Record http_response := { status_code : nat; content : string }.

(** What [generate_content] returns: reading [response.text] gives the text
    or raises (an answer without text). *)
Record model_response := { text : outcome string }.

(** The argument of [analyze_image]: a [str], a PIL image, or an object of
    another type. *)
Inductive image_source : Type :=
  | SourceStr (s : string)
  | SourceImage (img : image)
  | SourceOther.

(** The calls that leave the process or configure the client. *)
Inductive event : Type :=
  | GenaiSetup (api_key : string)
  | HttpGet (url : string)
  | FileOpen (path : string)
  | GenerateContent (img : image).

(** Everything the call chain gets from outside. *)
Record world := {
  (** [os.getenv] *)
  getenv : string → option string;
  (** [genai.configure(api_key=...)] and [genai.GenerativeModel(...)] *)
  genai_setup : string → outcome unit;
  (** [requests.get(url, headers=..., timeout=10)] *)
  requests_get : string → outcome http_response;
  (** [response.raise_for_status()] *)
  raise_for_status : http_response → outcome unit;
  (** [Image.open(io.BytesIO(content))] *)
  image_from_bytes : string → outcome image;
  (** [Image.open(path)] *)
  image_open : string → outcome image;
  (** [image.convert('RGB')] *)
  image_convert_rgb : image → outcome image;
  (** [self.model.generate_content([prompt, image])]; the prompt is the
      same text on every call. *)
  generate_content : image → outcome model_response;
  (** [json.loads] *)
  json_loads : string → outcome value;
  (** [datetime.now().isoformat()] *)
  now : string
}.

(** A computation that may call collaborators: it extends the trace of the
    calls made so far, and returns or raises. *)
Definition prog (A : Type) : Type := list event → outcome A * list event.

Definition ret {A} (a : A) : prog A := λ trace, (Returned a, trace).
Definition raise {A} (e : exn) : prog A := λ trace, (Raised e, trace).
Definition lift {A} (m : outcome A) : prog A := λ trace, (m, trace).

(** A call to a collaborator, recorded whether it returns or raises. *)
Definition call {A} (ev : event) (m : outcome A) : prog A :=
  λ trace, (m, trace ++ [ev])%list.

Definition prog_bind {A B} (m : prog A) (k : A → prog B) : prog B :=
  λ trace,
    match m trace with
    | (Returned a, trace') => k a trace'
    | (Raised e, trace') => (Raised e, trace')
    end.

(** [try: body  except Exception as e: handler(e)] *)
Definition try_except {A} (body : prog A) (handler : exn → prog A) : prog A :=
  λ trace,
    match body trace with
    | (Returned a, trace') => (Returned a, trace')
    | (Raised e, trace') => handler e trace'
    end.

Declare Scope prog_scope.
Delimit Scope prog_scope with prog.
Notation "x <- m ;; k" := (prog_bind m (λ x, k))
  (at level 100, m at next level, right associativity) : prog_scope.

(** The text [analyze_image] returns for an exception, and the object
    [detect_municipal_issue] returns for one. *)
Definition error_message (e : exn) : string :=
  "Error: Unable to analyze image - " +:+ str_exn e.

Definition error_object (e : exn) : gmap string value :=
  list_to_map
    [ ("error", VStr (str_exn e));
      ("message", VStr "Failed to analyze the image. Please check the URL or server logs.") ].

Definition missing_key_message : string :=
  "Error: Google Gemini API key not found.".

Section Analysis.

Variable w : world.
Local Open Scope prog_scope.

(** [load_image_from_url]: its handler logs and raises again. *)
Definition load_image_from_url (image_url : string) : prog image :=
  try_except
    (response <- call (HttpGet image_url) (requests_get w image_url) ;;
     _ <- lift (raise_for_status w response) ;;
     lift (image_from_bytes w (content response)))
    (λ e, raise e).

(** The first part of [analyze_image]: from the argument to a picture in
    RGB mode. *)
Definition acquire_image (source : image_source) : prog image :=
  image <-
    match source with
    | SourceStr s =>
        if startswith "http://" s || startswith "https://" s
        then load_image_from_url s
        else call (FileOpen s) (image_open w s)
    | SourceImage img => ret img
    | SourceOther =>
        raise (ValueError
          "image_source must be a file path, URL, or PIL Image")
    end ;;
  if negb (String.eqb (mode image) "RGB")
  then lift (image_convert_rgb w image) else ret image.

(** [analyze_image(self, image_source)] *)
Definition analyze_image (source : image_source) : prog value :=
  try_except
    (image <- acquire_image source ;;
     response <- call (GenerateContent image) (generate_content w image) ;;
     response_text <- lift (text response) ;;
     lift (normalize (json_loads w) (now w) response_text))
    (λ e, ret (VStr (error_message e))).

(** [if not API_KEY]: no variable, or an empty one. *)
Definition falsy (v : option string) : bool :=
  match v with
  | None => true
  | Some s => String.eqb s ""
  end.

(** [detect_municipal_issue(image_url)].  Past the test [API_KEY] is a
    [str] that is not empty; building the detector sets the client up. *)
Definition detect_municipal_issue (image_url : image_source) : prog value :=
  try_except
    (let API_KEY := getenv w "GOOGLE_GEMINI_API_KEY" in
     if falsy API_KEY
     then ret (VStr missing_key_message)
     else
       let key := default "" API_KEY in
       _ <- call (GenaiSetup key) (genai_setup w key) ;;
       analyze_image image_url)
    (λ e, ret (VDict (error_object e))).

End Analysis.

(** ** Vocabulary of the statements, and the texts of the examples *)

(** What validation leaves under a key it coerces: the value supplied when
    it is one of [valid], the fallback otherwise. *)
Definition coerced (valid : list string) (fallback : string)
    (supplied : option value) : value :=
  match supplied with
  | Some v => if in_strs v valid then v else VStr fallback
  | None => VStr fallback
  end.

(** The first test of [normalize]: the trimmed text is the sentinel or has
    it inside. *)
Definition has_sentinel (text : string) : bool :=
  String.eqb (strip text) NON_CIVIC_ISSUE
  || contains NON_CIVIC_ISSUE (strip text).

(** A scanner that started on [s] stopped on a shorter text, or raised
    something else than [RecursionError]. *)
Definition within {A} (s : string) (o : outcome (A * string)) : Prop :=
  match o with
  | Returned (_, rest) => (String.length rest < String.length s)%nat
  | Raised e => e ≠ RecursionError
  end.

(** The keys validation may write. *)
Definition written_keys : list string :=
  [ "department"; "priority"; "description"; "timestamp"; "status" ].

(** A result with its [timestamp] entry removed. *)
Definition without_timestamp (v : value) : value :=
  match v with
  | VDict d => VDict (delete "timestamp" d)
  | _ => v
  end.

Definition outcome_map {A B} (f : A → B) (o : outcome A) : outcome B :=
  match o with
  | Returned a => Returned (f a)
  | Raised e => Raised e
  end.

(** [{"department":"BOGUS","priority":"SUPERHIGH"}] *)
Definition bogus_text : string :=
  "{" +:+ quoted "department" +:+ ":" +:+ quoted "BOGUS" +:+ ","
  +:+ quoted "priority" +:+ ":" +:+ quoted "SUPERHIGH" +:+ "}".

(** [{"department":"FIRE","priority":"CRITICAL","description":"x"}] *)
Definition fire_object_text : string :=
  "{" +:+ quoted "department" +:+ ":" +:+ quoted "FIRE" +:+ ","
  +:+ quoted "priority" +:+ ":" +:+ quoted "CRITICAL" +:+ ","
  +:+ quoted "description" +:+ ":" +:+ quoted "x" +:+ "}".

(** The same object on a line of its own inside a fenced block tagged
    [json]. *)
Definition fenced_fire_text : string :=
  "```json" +:+ String newline (fire_object_text +:+ String newline "```").

(** A fenced block whose first line runs into the tag. *)
Definition run_in_text : string := "```jsono municipal".

Definition personal_item_text : string :=
  "I cannot identify any municipal issue, this looks like a personal item".

(** ["garbled nonsense" * 50] *)
Definition garbled_text : string := repeat_str "garbled nonsense" 50.

(** A picture already in RGB mode. *)
Definition rgb_image : image := {| mode := "RGB"; picture := 0 |}.

(** A world in which every collaborator succeeds and the model answers
    [answer]; [api_key] is the value of the environment variable. *)
Definition replay_world (api_key : option string) (answer : string) : world :=
  {| getenv := λ name,
       if String.eqb name "GOOGLE_GEMINI_API_KEY" then api_key else None;
     genai_setup := λ _, Returned ();
     requests_get := λ _, Returned {| status_code := 200; content := "" |};
     raise_for_status := λ _, Returned ();
     image_from_bytes := λ _, Returned rgb_image;
     image_open := λ _, Returned rgb_image;
     image_convert_rgb := λ img, Returned {| mode := "RGB"; picture := picture img |};
     generate_content := λ _, Returned {| text := Returned answer |};
     json_loads := Json.loads;
     now := "2024-05-01T12:00:00" |}.

(** ** The route [/analyze] of [server.py] *)

(** [data.get(key)]: the value under the key, [None] without it.  Only a
    dict has the method; on another object the attribute lookup raises an
    [AttributeError], carried here by [OtherError] with its message. *)
Definition py_get (data : value) (key : string) : outcome value :=
  match data with
  | VDict d => Returned (default VNone (d !! key))
  | _ => Raised (OtherError
           ("'" +:+ type_name data +:+ "' object has no attribute 'get'"))
  end.

(** The truth value of an object.  [float_truthy] tells whether the float
    read from a lexeme is other than zero. *)
Definition truthy (float_truthy : string → bool) (v : value) : bool :=
  match v with
  | VNone => false
  | VBool b => b
  | VInt z => negb (z =? 0)%Z
  | VFloat lexeme => float_truthy lexeme
  | VStr s => negb (String.eqb s "")
  | VList l => negb (bool_decide (l = []))
  | VDict d => negb (bool_decide (d = ∅))
  end.

(** What [analyze_image] sees of a value of the request body: a [str] is a
    [str], and no JSON value is a PIL image. *)
Definition source_of_value (v : value) : image_source :=
  match v with
  | VStr s => SourceStr s
  | _ => SourceOther
  end.

Definition missing_image_url : gmap string value :=
  {[ "error" := VStr "Missing 'image_url' in request body" ]}.

Section Route.

Variable w : world.
Variable float_truthy : string → bool.
Local Open Scope prog_scope.

(** [analyze_image_url()], from [data], the object [request.get_json()]
    returned, to the pair of the body handed to [jsonify] and the status.
    An exception that leaves it is left to Flask. *)
Definition analyze_image_url (data : value) : prog (value * nat) :=
  image_url <- lift (py_get data "image_url") ;;
  if negb (truthy float_truthy image_url)
  then ret (VDict missing_image_url, 400)
  else
    result <- detect_municipal_issue w (source_of_value image_url) ;;
    ret (result, 200).

End Route.

(** ** [encode_image] *)

(** The alphabet of [base64.b64encode]. *)
Definition b64_alphabet : string :=
  "ABCDEFGHIJKLMNOPQRSTUVWXYZabcdefghijklmnopqrstuvwxyz0123456789+/".

(** The character of a group of six bits. *)
Definition b64_char (n : nat) : ascii :=
  default "A"%char (String.get n b64_alphabet).

(** The groups of six bits of three bytes, first to last. *)
Definition sextet1 (a : ascii) : nat := nat_of_ascii a / 4.
Definition sextet2 (a b : ascii) : nat :=
  (nat_of_ascii a mod 4) * 16 + nat_of_ascii b / 16.
Definition sextet3 (b c : ascii) : nat :=
  (nat_of_ascii b mod 16) * 4 + nat_of_ascii c / 64.
Definition sextet4 (c : ascii) : nat := nat_of_ascii c mod 64.

(** [base64.b64encode(data)]: three bytes give four characters; one or two
    bytes left at the end are filled up with zero bits, give two or three
    characters and are padded with [=] to four. *)
Fixpoint b64encode (data : string) : string :=
  match data with
  | String a (String b (String c rest)) =>
      String (b64_char (sextet1 a)) (String (b64_char (sextet2 a b))
        (String (b64_char (sextet3 b c)) (String (b64_char (sextet4 c))
          (b64encode rest))))
  | String a (String b EmptyString) =>
      String (b64_char (sextet1 a)) (String (b64_char (sextet2 a b))
        (String (b64_char (sextet3 b zero)) "="))
  | String a EmptyString =>
      String (b64_char (sextet1 a)) (String (b64_char (sextet2 a zero)) "==")
  | EmptyString => EmptyString
  end.

Section Encoding.

(** [open(image_path, "rb")] and [image_file.read()]: the bytes of the
    file. *)
Variable read_file : string → outcome string.
Local Open Scope prog_scope.

(** [encode_image(self, image_path)].  The encoded bytes are ASCII, so
    [.decode('utf-8')] gives the same characters; the handler logs and
    raises again. *)
Definition encode_image (image_path : string) : prog string :=
  try_except
    (data <- call (FileOpen image_path) (read_file image_path) ;;
     ret (b64encode data))
    (λ e, raise e).

End Encoding.

(** ** More vocabulary *)

(** Every character of [s] is white space for [str.strip]. *)
Fixpoint all_space (s : string) : bool :=
  match s with
  | String c s' => isspace c && all_space s'
  | EmptyString => true
  end.

(** The last character of [p], when there is one, is not white space. *)
Fixpoint ends_on_text (p : string) : bool :=
  match p with
  | EmptyString => true
  | String c EmptyString => negb (isspace c)
  | String _ p' => ends_on_text p'
  end.

(** The step of the call chain a collaborator call belongs to: setting the
    client up, loading the picture, asking the model. *)
Definition stage (ev : event) : nat :=
  match ev with
  | GenaiSetup _ => 0
  | HttpGet _ => 1
  | FileOpen _ => 1
  | GenerateContent _ => 2
  end.

(** [s.startswith(('http://', 'https://'))] *)
Definition is_url (s : string) : bool :=
  startswith "http://" s || startswith "https://" s.

(** The calls that getting the picture makes: one download for a URL, one
    file opening for another [str], none otherwise. *)
Definition acquire_events (source : image_source) : list event :=
  match source with
  | SourceStr s => [if is_url s then HttpGet s else FileOpen s]
  | _ => []
  end.

(** A world told what each collaborator does: the value of the environment
    variable, the outcome of setting the client up, of the download, of the
    status check, and of the model call.  Files open, pictures decode, and
    the decoder is [Json.loads]. *)
Definition scripted_world (api_key : option string) (setup : outcome unit)
    (download : outcome http_response) (status : outcome unit)
    (reply : outcome model_response) : world :=
  {| getenv := λ name,
       if String.eqb name "GOOGLE_GEMINI_API_KEY" then api_key else None;
     genai_setup := λ _, setup;
     requests_get := λ _, download;
     raise_for_status := λ _, status;
     image_from_bytes := λ _, Returned rgb_image;
     image_open := λ _, Returned rgb_image;
     image_convert_rgb := λ img, Returned {| mode := "RGB"; picture := picture img |};
     generate_content := λ _, reply;
     json_loads := Json.loads;
     now := "2024-05-01T12:00:00" |}.

(** A download that succeeds, and a model that answers [answer]. *)
Definition page : outcome http_response :=
  Returned {| status_code := 200; content := "" |}.
Definition answers (answer : string) : outcome model_response :=
  Returned {| text := Returned answer |}.

(** ["[" * 2000 + " no civic issue"]: nested deeper than the interpreter
    lets the decoder recurse, with a negative phrase at the end. *)
Definition deeply_nested_text : string :=
  repeat_str "[" 2000 +:+ " no civic issue".

(** A decoder that has run into the recursion limit of the interpreter. *)
Definition out_of_stack : string → outcome value := λ _, Raised RecursionError.

(** A world like [w] but for its decoder. *)
Definition with_decoder (loads : string → outcome value) (w : world) : world :=
  {| getenv := getenv w;
     genai_setup := genai_setup w;
     requests_get := requests_get w;
     raise_for_status := raise_for_status w;
     image_from_bytes := image_from_bytes w;
     image_open := image_open w;
     image_convert_rgb := image_convert_rgb w;
     generate_content := generate_content w;
     json_loads := loads;
     now := now w |}.

(** * Properties *)

(** ** The decoder terminates within its fuel *)

Section DecoderFuel.

Import Json.
Local Open Scope nat_scope.

Lemma skip_whitespace_length s :
  String.length (skip_whitespace s) ≤ String.length s.
Proof.
  induction s as [|c s IH]; cbn [skip_whitespace]; [done|].
  destruct (is_whitespace c); cbn [String.length]; lia.
Qed.

Lemma digits_length s : String.length (digits s).2 ≤ String.length s.
Proof.
  induction s as [|c s IH]; cbn [digits]; [done|].
  destruct (is_digit c); [|done].
  destruct (digits s) as [ds rest]. cbn in *. lia.
Qed.

Lemma slice_from_length n s :
  String.length (slice_from n s) = String.length s - n.
Proof.
  revert s. induction n as [|n IH]; intros [|c s]; cbn [slice_from String.length];
    [done | lia | done | apply IH].
Qed.

Lemma prefix_length p s :
  String.prefix p s = true → String.length p ≤ String.length s.
Proof.
  revert s. induction p as [|a p IH]; intros [|b s];
    cbn [String.prefix String.length]; try done; try lia.
  destruct (ascii_dec a b); [|done].
  intros H. apply IH in H. lia.
Qed.

Lemma literal_within word v s r :
  word ≠ EmptyString → literal word v s = Some r →
  within s (Returned r).
Proof.
  intros Hw. unfold literal. destruct (String.prefix word s) eqn:Hp; [|done].
  intros [= <-]. cbn. rewrite slice_from_length.
  apply prefix_length in Hp. destruct word; [done|]. cbn in *. lia.
Qed.

Lemma scanstring_within n s :
  String.length s ≤ n → within s (scanstring s).
Proof.
  revert s. induction n as [|n IH]; intros [|c rest] Hn;
    cbn [scanstring]; try done; cbn in Hn; [lia|].
  assert (Hstep : ∀ r (x : ascii), String.length r ≤ String.length rest →
            within (String c rest)
              (let* '(str, after) := scanstring r in
               Returned (String x str, after))).
  { intros r x Hr. specialize (IH r ltac:(lia)).
    destruct (scanstring r) as [[str after]|e]; cbn in *; [lia|done]. }
  destruct (Ascii.eqb c dquote); [cbn; lia|].
  destruct (Ascii.eqb c "\").
  - destruct rest as [|e rest']; [done|].
    destruct (Ascii.eqb e "u").
    + destruct rest' as [|h1 [|h2 [|h3 [|h4 rest'']]]]; try done.
      destruct (hex4 h1 h2 h3 h4) as [k|]; [|done].
      destruct (k <? 256)%nat; [|done]. apply Hstep. cbn. lia.
    + destruct (escape e); [|done]. apply Hstep. cbn. lia.
  - destruct (nat_of_ascii c <? 32)%nat; [done|]. by apply Hstep.
Qed.

Lemma expect_length c s r :
  expect c s = Some r → String.length s = S (String.length r).
Proof.
  destruct s as [|c' s]; cbn [expect]; [done|].
  destruct (Ascii.eqb c' c); [|done]. by intros [= ->].
Qed.

Local Ltac length_facts :=
  repeat match goal with
  | H : expect _ _ = Some _ |- _ => apply expect_length in H
  | H : digits ?s = (_, _) |- _ =>
      let H' := fresh in
      pose proof (digits_length s) as H'; rewrite H in H'; cbn [snd] in H';
      clear H
  end.

Local Ltac split_cases :=
  repeat (cbn beta iota zeta;
    match goal with
    | |- context [expect ?c ?s] => destruct (expect c s) eqn:?
    | |- context [digits ?s] => destruct (digits s) as [? ?] eqn:?
    | |- context [Ascii.eqb ?a ?b] => destruct (Ascii.eqb a b)
    | |- context [is_digit ?c] => destruct (is_digit c)
    | |- context [match ?x with EmptyString => _ | String _ _ => _ end] =>
        is_var x; destruct x
    end).

Lemma match_number_within s r :
  match_number s = Some r → within s (Returned r).
Proof.
  unfold match_number. split_cases; cbn [orb]; split_cases; try done;
    intros [= <-]; cbn [within]; length_facts;
    cbn [String.length] in *; lia.
Qed.

Lemma within_mono {A} s s' (o : outcome (A * string)) :
  within s o → String.length s ≤ String.length s' → within s' o.
Proof. destruct o as [[a rest]|e]; cbn [within]; [lia|done]. Qed.

(** The three scanners use up no fuel that [loads] gives them. *)
Lemma scanners_within fuel :
  (∀ s, 2 * String.length s < fuel → within s (scan_once fuel s))
  ∧ (∀ pairs s, 2 * String.length s + 1 < fuel →
       within (String "{" s) (object_members fuel pairs s))
  ∧ (∀ values s, 2 * String.length s + 1 < fuel →
       within (String "[" s) (array_elements fuel values s)).
Proof.
  induction fuel as [|fuel (IHscan & IHobj & IHarr)];
    [repeat split; intros; lia|].
  repeat split.
  - intros [|c rest] Hf; cbn [scan_once]; [done|].
    cbn [String.length] in Hf.
    destruct (Ascii.eqb c dquote).
    { pose proof (scanstring_within _ rest (le_n _)) as Hs.
      destruct (scanstring rest) as [[str after]|e]; cbn in *; [lia|done]. }
    destruct (Ascii.eqb c "{").
    { pose proof (skip_whitespace_length rest).
      destruct (expect "}" (skip_whitespace rest)) eqn:He.
      - length_facts. cbn. lia.
      - eapply within_mono; [apply IHobj; lia | cbn; lia]. }
    destruct (Ascii.eqb c "[").
    { pose proof (skip_whitespace_length rest).
      destruct (expect "]" (skip_whitespace rest)) eqn:He.
      - length_facts. cbn. lia.
      - eapply within_mono; [apply IHarr; lia | cbn; lia]. }
    repeat match goal with
    | |- context [literal ?w ?v ?s] =>
        let H := fresh in
        destruct (literal w v s) eqn:H;
        [by apply (literal_within w v) | clear H]
    | |- context [match_number ?s] =>
        let H := fresh in
        destruct (match_number s) eqn:H;
        [by apply match_number_within | clear H]
    end.
    done.
  - intros pairs s Hf. cbn [object_members].
    destruct (expect dquote s) as [rest|] eqn:E1; [|done].
    pose proof (scanstring_within _ rest (le_n _)) as Hs.
    destruct (scanstring rest) as [[key after]|e]; cbn [bind within] in *;
      [|done].
    pose proof (skip_whitespace_length after).
    destruct (expect ":" (skip_whitespace after)) as [after1|] eqn:E2; [|done].
    pose proof (skip_whitespace_length after1).
    length_facts.
    assert (Hv : within (skip_whitespace after1)
                   (scan_once fuel (skip_whitespace after1)))
      by (apply IHscan; lia).
    destruct (scan_once fuel (skip_whitespace after1)) as [[v after2]|e];
      cbn [bind within] in *; [|done].
    pose proof (skip_whitespace_length after2).
    destruct (expect "}" (skip_whitespace after2)) as [after3|] eqn:E3.
    { length_facts. cbn. lia. }
    destruct (expect "," (skip_whitespace after2)) as [after3|] eqn:E4; [|done].
    pose proof (skip_whitespace_length after3).
    length_facts.
    eapply within_mono; [apply IHobj; lia | cbn; lia].
  - intros values s Hf. cbn [array_elements].
    assert (Hv : within s (scan_once fuel s)) by (apply IHscan; lia).
    destruct (scan_once fuel s) as [[v after]|e]; cbn [bind within] in *;
      [|done].
    pose proof (skip_whitespace_length after).
    destruct (expect "]" (skip_whitespace after)) as [after1|] eqn:E1.
    { length_facts. cbn. lia. }
    destruct (expect "," (skip_whitespace after)) as [after1|] eqn:E2; [|done].
    pose proof (skip_whitespace_length after1).
    length_facts.
    eapply within_mono; [apply IHarr; lia | cbn; lia].
Qed.

(** The decoder never stops for lack of fuel. *)
Lemma loads_never_out_of_fuel s : loads s ≠ Raised RecursionError.
Proof.
  unfold loads.
  pose proof (skip_whitespace_length s).
  assert (Hv : within (skip_whitespace s)
                 (scan_once (S (2 * String.length s)) (skip_whitespace s)))
    by (apply scanners_within; lia).
  destruct (scan_once _ _) as [[obj after]|e]; cbn [bind within] in *.
  - by destruct (skip_whitespace after).
  - congruence.
Qed.

End DecoderFuel.

(** ** Validation on a dict and on anything else *)

Section Validation.

Variable now : string.

Lemma ensure_fields_dict (fields : list string) (d : gmap string value) :
  ∃ d', ensure_fields fields (VDict d) = Returned (VDict d')
    ∧ ∀ k, d' !! k =
        match d !! k with
        | Some v => Some v
        | None => if bool_decide (k ∈ fields) then Some (VStr "UNKNOWN") else None
        end.
Proof.
  revert d. induction fields as [|field rest IH]; intros d.
  - exists d. split; [reflexivity|]. intros k. by destruct (d !! k).
  - cbn [ensure_fields py_contains bind].
    destruct (d !! field) as [v|] eqn:Hf.
    + rewrite bool_decide_eq_true_2 by eauto.
      destruct (IH d) as (d' & Hrun & Hlook). exists d'. split; [exact Hrun|].
      intros k. rewrite Hlook. destruct (d !! k) eqn:Hk; [done|].
      assert (k ≠ field) by congruence.
      repeat case_bool_decide; first [done | exfalso; rewrite elem_of_cons in *; tauto].
    + rewrite bool_decide_eq_false_2 by (intros [? ?]; congruence).
      cbn [py_setitem bind].
      destruct (IH (<[field := VStr "UNKNOWN"]> d)) as (d' & Hrun & Hlook).
      exists d'. split; [exact Hrun|].
      intros k. rewrite Hlook. destruct (decide (k = field)) as [->|Hne].
      * rewrite lookup_insert_eq, Hf.
        rewrite bool_decide_eq_true_2; [done | left].
      * rewrite lookup_insert_ne by done. destruct (d !! k); [done|].
        repeat case_bool_decide; first [done | exfalso; rewrite elem_of_cons in *; tauto].
Qed.

Lemma coerce_dict key valid fallback (d : gmap string value) v :
  d !! key = Some v →
  ∃ d', coerce key valid fallback (VDict d) = Returned (VDict d')
    ∧ d' !! key = Some (if in_strs v valid then v else VStr fallback)
    ∧ ∀ k, k ≠ key → d' !! k = d !! k.
Proof.
  intros Hk. unfold coerce. cbn [py_getitem]. rewrite Hk. cbn [bind].
  destruct (in_strs v valid).
  - exists d. by repeat split.
  - eexists. split; [reflexivity|]. split.
    + apply lookup_insert_eq.
    + intros k Hne. by apply lookup_insert_ne.
Qed.

Lemma in_strs_elem (v : value) (l : list string) :
  in_strs v l = true ↔ ∃ s, v = VStr s ∧ s ∈ l.
Proof.
  unfold in_strs. rewrite existsb_exists. split.
  - intros (s & Hin & Heq). destruct v; try discriminate.
    apply String.eqb_eq in Heq. subst. exists s. split; [done|].
    by apply list_elem_of_In.
  - intros (s & -> & Hin). exists s. split; [by apply list_elem_of_In|].
    apply String.eqb_refl.
Qed.

Lemma coerced_valid valid fallback supplied :
  fallback ∈ valid →
  ∃ s, coerced valid fallback supplied = VStr s ∧ s ∈ valid.
Proof.
  intros Hd. unfold coerced. destruct supplied as [v|]; [|by eauto].
  destruct (in_strs v valid) eqn:Hv; [|by eauto].
  by apply in_strs_elem.
Qed.

Lemma unknown_not_valid :
  in_strs (VStr "UNKNOWN") valid_departments = false
  ∧ in_strs (VStr "UNKNOWN") valid_priorities = false.
Proof. split; reflexivity. Qed.

Lemma coerced_default valid fallback (supplied : option value) :
  in_strs (VStr "UNKNOWN") valid = false →
  (let v := default (VStr "UNKNOWN") supplied in
   if in_strs v valid then v else VStr fallback)
  = coerced valid fallback supplied.
Proof. intros Hu. destruct supplied; cbn; [done|]. cbn in Hu. by rewrite Hu. Qed.

(** What validation returns on a dict, key by key. *)
Lemma validate_dict (d : gmap string value) :
  ∃ d', _validate_and_enhance_result now (VDict d) = Returned (VDict d')
    ∧ d' !! "department"
      = Some (coerced valid_departments "BUILDING" (d !! "department"))
    ∧ d' !! "priority"
      = Some (coerced valid_priorities "MEDIUM" (d !! "priority"))
    ∧ d' !! "description" = Some (default (VStr "UNKNOWN") (d !! "description"))
    ∧ d' !! "timestamp" = Some (VStr now)
    ∧ d' !! "status" = Some (VStr "PENDING")
    ∧ ∀ k, k ∉ written_keys → d' !! k = d !! k.
Proof.
  unfold _validate_and_enhance_result.
  destruct (ensure_fields_dict ["department"; "priority"; "description"] d)
    as (d1 & -> & H1).
  cbn [bind].
  assert (Hreq : ∀ k, k ∈ ["department"; "priority"; "description"] →
             d1 !! k = Some (default (VStr "UNKNOWN") (d !! k))).
  { intros k Hk. rewrite H1. destruct (d !! k); [done|].
    by rewrite bool_decide_eq_true_2. }
  assert (Hrest : ∀ k, k ∉ ["department"; "priority"; "description"] →
             d1 !! k = d !! k).
  { intros k Hk. rewrite H1. destruct (d !! k); [done|].
    by rewrite bool_decide_eq_false_2. }
  destruct (coerce_dict "department" valid_departments "BUILDING" d1 _
              (Hreq "department" ltac:(rewrite !elem_of_cons; tauto)))
    as (d2 & -> & Hdep & H2).
  cbn [bind].
  destruct (coerce_dict "priority" valid_priorities "MEDIUM" d2
              (default (VStr "UNKNOWN") (d !! "priority")))
    as (d3 & -> & Hpri & H3).
  { rewrite H2 by done. apply Hreq. rewrite !elem_of_cons; tauto. }
  cbn [bind py_setitem].
  eexists. split; [reflexivity|].
  destruct unknown_not_valid as [Hud Hup].
  repeat split.
  - rewrite !lookup_insert_ne by done. rewrite H3 by done. rewrite Hdep.
    f_equal. by apply coerced_default.
  - rewrite !lookup_insert_ne by done. rewrite Hpri.
    f_equal. by apply coerced_default.
  - rewrite !lookup_insert_ne by done. rewrite H3, H2 by done.
    apply Hreq. rewrite !elem_of_cons; tauto.
  - rewrite lookup_insert_ne by done. apply lookup_insert_eq.
  - apply lookup_insert_eq.
  - intros k Hk. unfold written_keys in Hk. rewrite !elem_of_cons in Hk.
    rewrite !lookup_insert_ne by (intros <-; tauto).
    rewrite H3, H2 by (intros ->; tauto).
    apply Hrest. rewrite !elem_of_cons. tauto.
Qed.

Lemma dict_or_not (v : value) : (∃ d, v = VDict d) ∨ (∀ d, v ≠ VDict d).
Proof. destruct v; eauto; right; discriminate. Qed.

(** On a list or a str the loop over the required fields either leaves
    the object as it is or fails on the assignment. *)
Lemma ensure_fields_non_dict (fields : list string) (v : value) :
  (∃ s, v = VStr s) ∨ (∃ l, v = VList l) →
  ensure_fields fields v = Returned v
  ∨ ∃ msg, ensure_fields fields v = Raised (TypeError msg).
Proof.
  intros Hv. induction fields as [|field rest IH]; [by left|].
  destruct Hv as [[s ->]|[l ->]]; cbn [ensure_fields py_contains bind].
  - destruct (contains field s); cbn [bind py_setitem]; [apply IH; eauto|].
    right. eauto.
  - destruct (existsb _ l); cbn [bind py_setitem]; [apply IH; eauto|].
    right. eauto.
Qed.

(** Validation of anything but a dict ends with a [TypeError], the same at
    every time. *)
Lemma validate_non_dict (v : value) :
  (∀ d, v ≠ VDict d) →
  ∃ msg, ∀ clock, _validate_and_enhance_result clock v = Raised (TypeError msg).
Proof.
  intros Hv. unfold _validate_and_enhance_result.
  destruct v as [| | | |s|l|d]; try (eexists; intros; reflexivity).
  - destruct (ensure_fields_non_dict ["department"; "priority"; "description"]
                (VStr s)) as [->|[msg ->]]; eauto;
      eexists; intros; reflexivity.
  - destruct (ensure_fields_non_dict ["department"; "priority"; "description"]
                (VList l)) as [->|[msg ->]]; eauto;
      eexists; intros; reflexivity.
  - by destruct (Hv d).
Qed.

End Validation.

Section Normalisation.

Variable loads : string → outcome value.
Variable clock : string.

Lemma normalize_sentinel text :
  has_sentinel text = true →
  normalize loads clock text = Returned (VStr no_issue_message).
Proof. unfold has_sentinel, normalize. by intros ->. Qed.

Lemma normalize_parsed text v :
  has_sentinel text = false →
  loads (strip_fences (strip text)) = Returned v →
  normalize loads clock text = _validate_and_enhance_result clock v.
Proof.
  unfold has_sentinel, normalize. intros -> ->. cbn [bind].
  unfold except_JSONDecodeError.
  destruct (_validate_and_enhance_result clock v) as [r|e] eqn:Hv; [done|].
  destruct e; try done.
  (* validation never raises a decoding error *)
  exfalso. destruct (dict_or_not v) as [[d ->]|Hnd].
  - destruct (validate_dict clock d) as (d' & Hd & _). congruence.
  - destruct (validate_non_dict v Hnd) as [m Hm].
    rewrite Hm in Hv. discriminate.
Qed.

Lemma fallback_raises text :
  _create_fallback_response clock text = Raised (NameError "datetime").
Proof. reflexivity. Qed.

Lemma normalize_undecodable text msg :
  has_sentinel text = false →
  loads (strip_fences (strip text)) = Raised (JSONDecodeError msg) →
  normalize loads clock text
  = if negative_signal text then Returned (VStr no_issue_message)
    else Raised (NameError "datetime").
Proof.
  unfold has_sentinel, normalize. intros -> ->. cbn [bind except_JSONDecodeError].
  by rewrite fallback_raises.
Qed.

Lemma normalize_decoder_fault text e :
  has_sentinel text = false →
  loads (strip_fences (strip text)) = Raised e →
  (∀ msg, e ≠ JSONDecodeError msg) →
  normalize loads clock text = Raised e.
Proof.
  unfold has_sentinel, normalize. intros -> -> He. cbn [bind except_JSONDecodeError].
  destruct e; try done. by destruct (He msg).
Qed.

End Normalisation.

(** ** The sentinel *)

(** C4. Whenever the trimmed text is the sentinel [NON_CIVIC_ISSUE] or has it
    inside, [normalize] returns the fixed "no issue" message, whatever the
    decoder would do with the text: the test comes before any decoding. *)
Theorem sentinel_takes_precedence
    (loads : string → outcome value) (clock text : string) :
  strip text = NON_CIVIC_ISSUE ∨ contains NON_CIVIC_ISSUE (strip text) = true →
  normalize loads clock text = Returned (VStr no_issue_message).
Proof.
  intros H. apply normalize_sentinel. unfold has_sentinel.
  destruct H as [-> | ->]; [reflexivity | apply orb_true_r].
Qed.

Lemma sentinel_takes_precedence_examples :
  normalize Json.loads "2024-05-01T12:00:00" "NON_CIVIC_ISSUE"
  = Returned (VStr no_issue_message)
  ∧ normalize (λ _, Raised RecursionError) "2024-05-01T12:00:00"
      "some preamble NON_CIVIC_ISSUE trailing"
    = Returned (VStr no_issue_message).
Proof.
  split; apply sentinel_takes_precedence; [left | right]; reflexivity.
Defined.

(** ** Answers that are not JSON *)

(** C6. When decoding fails with [JSONDecodeError] and the answer as the
    model gave it, lower-cased, has one of the five negative phrases inside,
    [normalize] returns the same "no issue" message as for the sentinel. *)
Theorem negative_signal_yields_no_issue
    (loads : string → outcome value) (clock text msg keyword : string) :
  loads (strip_fences (strip text)) = Raised (JSONDecodeError msg) →
  keyword ∈ [ "no municipal"; "no civic"; "not a municipal"; "personal item";
              "non-civic" ] →
  contains keyword (lower text) = true →
  normalize loads clock text = Returned (VStr no_issue_message).
Proof.
  intros Hload Hkw Hin.
  destruct (has_sentinel text) eqn:Hs; [by apply normalize_sentinel|].
  rewrite (normalize_undecodable _ _ _ _ Hs Hload).
  replace (negative_signal text) with true; [done|].
  symmetry. unfold negative_signal. apply existsb_exists.
  exists keyword. split; [|done]. by apply list_elem_of_In.
Qed.

Lemma negative_signal_yields_no_issue_examples :
  normalize Json.loads "2024-05-01T12:00:00" personal_item_text
  = Returned (VStr no_issue_message)
  ∧ (contains "no municipal" (lower (strip_fences (strip run_in_text))) = false
     ∧ normalize Json.loads "2024-05-01T12:00:00" run_in_text
       = Returned (VStr no_issue_message)).
Proof.
  split; [|split; [reflexivity|]].
  - apply (negative_signal_yields_no_issue _ _ _ "Expecting value" "personal item");
      [reflexivity | compute_done | reflexivity].
  - apply (negative_signal_yields_no_issue _ _ _ "Expecting value" "no municipal");
      [reflexivity | compute_done | reflexivity].
Defined.

(** C6, as first stated for every answer that fails to parse.  When the
    decoder fails with something else than [JSONDecodeError], here with
    [RecursionError] on an answer nested too deep, the handler of the
    decoding errors is not entered: the negative phrase in the answer is not
    looked for, [normalize] raises, and the caller gets the error text. *)
Lemma negative_phrase_skipped_on_recursion_error :
  out_of_stack (strip_fences (strip deeply_nested_text)) = Raised RecursionError
  ∧ contains "no civic" (lower deeply_nested_text) = true
  ∧ normalize out_of_stack "2024-05-01T12:00:00" deeply_nested_text
    = Raised RecursionError
  ∧ normalize out_of_stack "2024-05-01T12:00:00" deeply_nested_text
    ≠ Returned (VStr no_issue_message)
  ∧ analyze_image
      (with_decoder out_of_stack (replay_world (Some "key") deeply_nested_text))
      (SourceImage rgb_image) []
    = (Returned (VStr "Error: Unable to analyze image - maximum recursion depth exceeded"),
       [GenerateContent rgb_image]).
Proof.
  assert (Hn : normalize out_of_stack "2024-05-01T12:00:00" deeply_nested_text
               = Raised RecursionError) by (vm_compute; reflexivity).
  split; [reflexivity|]. split; [vm_compute; reflexivity|].
  split; [exact Hn|]. split; [rewrite Hn; discriminate|].
  vm_compute. reflexivity.
Qed.

(** Without sentinel and without negative phrase, an answer that is not JSON
    reaches [_create_fallback_response], and the read of [datetime] ends the
    normalisation. *)
Lemma fallback_path_raises
    (loads : string → outcome value) (clock text msg : string) :
  has_sentinel text = false →
  loads (strip_fences (strip text)) = Raised (JSONDecodeError msg) →
  negative_signal text = false →
  normalize loads clock text = Raised (NameError "datetime").
Proof.
  intros Hs Hload Hneg. rewrite (normalize_undecodable _ _ _ _ Hs Hload).
  by rewrite Hneg.
Qed.

(** In a module that binds [datetime] at its top level the same function
    returns the record of the display. *)
Lemma fallback_with_datetime (clock text : string) :
  create_fallback_response_in clock ("datetime" :: module_globals) text
  = Returned (VDict (fallback_record clock text)).
Proof. reflexivity. Qed.

(** The entries of that record. *)
Lemma fallback_record_fields (clock text : string) :
  let record := fallback_record clock text in
  record !! "department" = Some (VStr "BUILDING")
  ∧ record !! "priority" = Some (VStr "MEDIUM")
  ∧ record !! "description"
    = Some (VStr (if (200 <? String.length text)%nat
                  then slice_to 200 text +:+ "..." else text))
  ∧ record !! "confidence_score" = Some (VFloat "0.5")
  ∧ record !! "safety_concern" = Some (VStr "Unknown")
  ∧ record !! "status" = Some (VStr "PENDING")
  ∧ record !! "timestamp" = Some (VStr clock)
  ∧ record !! "note"
    = Some (VStr "Fallback response - manual review recommended").
Proof. repeat split. Qed.

(** On ["garbled nonsense" * 50] the description of that record is the
    first 200 characters and three dots. *)
Lemma fallback_description_garbled :
  fallback_description garbled_text = slice_to 200 garbled_text +:+ "..."
  ∧ String.length (fallback_description garbled_text) = 203.
Proof. split; vm_compute; reflexivity. Qed.

(** The record depends on the time through its [timestamp] only. *)
Lemma fallback_record_up_to_timestamp (clock1 clock2 text : string) :
  delete "timestamp" (fallback_record clock1 text)
  = delete "timestamp" (fallback_record clock2 text).
Proof.
  apply map_eq. intros k.
  destruct (decide (k = "timestamp")) as [->|Hk].
  { by rewrite !lookup_delete_eq. }
  rewrite !lookup_delete_ne by done.
  unfold fallback_record. cbn [list_to_map foldr fst snd].
  rewrite !lookup_insert. repeat case_decide; congruence.
Qed.

(** ** What the analysis call returns *)

Section Shape.

Variable loads : string → outcome value.
Variable clock : string.

(** [normalize] returns a message or a dict. *)
Lemma normalize_returns_str_or_dict text v :
  normalize loads clock text = Returned v →
  (∃ s, v = VStr s) ∨ (∃ d, v = VDict d).
Proof.
  intros Hn. destruct (has_sentinel text) eqn:Hs.
  { rewrite normalize_sentinel in Hn by done. injection Hn as <-. by eauto. }
  destruct (loads (strip_fences (strip text))) as [x|e] eqn:Hl.
  - rewrite (normalize_parsed _ _ _ _ Hs Hl) in Hn.
    destruct (dict_or_not x) as [[d ->]|Hnd].
    + destruct (validate_dict clock d) as (d' & Hd & _).
      right. exists d'. congruence.
    + destruct (validate_non_dict x Hnd) as [m Hm]. congruence.
  - destruct e as [msg| | | | | |];
      try (rewrite (normalize_decoder_fault _ _ _ _ Hs Hl) in Hn by done;
           discriminate).
    rewrite (normalize_undecodable _ _ _ _ Hs Hl) in Hn.
    destruct (negative_signal text); [|discriminate].
    injection Hn as <-. by eauto.
Qed.

End Shape.

Section AnalysisFacts.

Variable w : world.

(** Once the picture is there and the model has answered [answer], the
    call returns what [normalize] returns, or the error text of what it
    raises; the model was called once. *)
Lemma analyze_image_on_answer source trace img trace' response answer :
  acquire_image w source trace = (Returned img, trace') →
  generate_content w img = Returned response →
  text response = Returned answer →
  analyze_image w source trace
  = (Returned match normalize (json_loads w) (now w) answer with
              | Returned v => v
              | Raised e => VStr (error_message e)
              end,
     (trace' ++ [GenerateContent img])%list).
Proof.
  intros Hacq Hgen Htext.
  unfold analyze_image, try_except, prog_bind, call, lift, ret.
  rewrite Hacq, Hgen, Htext.
  by destruct (normalize (json_loads w) (now w) answer).
Qed.

(** The analysis call returns; its result is what [normalize] returned on
    some answer, or the error text of an exception. *)
Lemma analyze_image_returns source trace :
  ∃ v trace', analyze_image w source trace = (Returned v, trace')
    ∧ ((∃ e, v = VStr (error_message e))
       ∨ (∃ answer, normalize (json_loads w) (now w) answer = Returned v)).
Proof.
  unfold analyze_image, try_except, prog_bind, call, lift, ret.
  destruct (acquire_image w source trace) as [[img|e] t1]; [|by eauto 6].
  destruct (generate_content w img) as [response|e]; [|by eauto 6].
  destruct (text response) as [answer|e]; [|by eauto 6].
  destruct (normalize (json_loads w) (now w) answer) as [v|e] eqn:Hn;
    by eauto 6.
Qed.

(** With a key in the environment and a client that sets up, the utility
    function is the analysis call. *)
Lemma detect_with_key source trace key :
  getenv w "GOOGLE_GEMINI_API_KEY" = Some key → key ≠ "" →
  genai_setup w key = Returned () →
  detect_municipal_issue w source trace
  = analyze_image w source (trace ++ [GenaiSetup key])%list.
Proof.
  intros Hk Hne Hset. unfold detect_municipal_issue, try_except at 1.
  rewrite Hk. change (default "" (Some key)) with key. cbn [falsy].
  rewrite (proj2 (String.eqb_neq _ _)) by done.
  unfold prog_bind, call. rewrite Hset.
  by destruct (analyze_image_returns source (trace ++ [GenaiSetup key])%list)
    as (v & t' & -> & _).
Qed.

End AnalysisFacts.

(** C10. When the answer has no sentinel and decodes to a JSON value that is
    not an object, validation raises a [TypeError]; the handler of the
    decoding errors lets it through, so it leaves [normalize]; the handler
    around [analyze_image] turns it into the error text, which is what the
    caller gets: neither a report nor a fallback record. *)
Theorem non_object_json_gives_error_string
    (w : world) (source : image_source) (trace trace' : list event)
    (img : image) (response : model_response) (answer : string) (v : value) :
  acquire_image w source trace = (Returned img, trace') →
  generate_content w img = Returned response →
  text response = Returned answer →
  has_sentinel answer = false →
  json_loads w (strip_fences (strip answer)) = Returned v →
  (∀ d, v ≠ VDict d) →
  ∃ msg,
    _validate_and_enhance_result (now w) v = Raised (TypeError msg)
    ∧ normalize (json_loads w) (now w) answer = Raised (TypeError msg)
    ∧ analyze_image w source trace
      = (Returned (VStr ("Error: Unable to analyze image - " +:+ msg)),
         (trace' ++ [GenerateContent img])%list).
Proof.
  intros Hacq Hgen Htext Hs Hl Hnd.
  destruct (validate_non_dict v Hnd) as [msg Hm]. exists msg.
  assert (Hn : normalize (json_loads w) (now w) answer = Raised (TypeError msg)).
  { by rewrite (normalize_parsed _ _ _ _ Hs Hl). }
  repeat split; [done | done |].
  rewrite (analyze_image_on_answer _ _ _ _ _ _ _ Hacq Hgen Htext).
  by rewrite Hn.
Qed.

Lemma non_object_json_examples :
  analyze_image (replay_world (Some "key") "[1, 2]") (SourceImage rgb_image) []
  = (Returned (VStr "Error: Unable to analyze image - list indices must be integers or slices, not str"),
     [GenerateContent rgb_image])
  ∧ analyze_image (replay_world (Some "key") "42") (SourceStr "street.png") []
    = (Returned (VStr "Error: Unable to analyze image - argument of type 'int' is not iterable"),
       [FileOpen "street.png"; GenerateContent rgb_image]).
Proof.
  split.
  - destruct (non_object_json_gives_error_string
                (replay_world (Some "key") "[1, 2]") (SourceImage rgb_image)
                [] [] rgb_image {| text := Returned "[1, 2]" |} "[1, 2]"
                (VList [VInt 1; VInt 2]))
      as (msg & Hv & _ & ->); try reflexivity; [discriminate|].
    vm_compute in Hv. injection Hv as <-. reflexivity.
  - destruct (non_object_json_gives_error_string
                (replay_world (Some "key") "42") (SourceStr "street.png")
                [] [FileOpen "street.png"] rgb_image
                {| text := Returned "42" |} "42" (VInt 42))
      as (msg & Hv & _ & ->); try reflexivity; [discriminate|].
    vm_compute in Hv. injection Hv as <-. reflexivity.
Defined.

(** C1 (what the code does). On ["garbled nonsense" * 50], which is not JSON
    and has neither sentinel nor negative phrase, [normalize] does not
    return a fallback record: it raises [NameError] for [datetime], and the
    caller of the analysis gets the error text. *)
Theorem garbled_answer_yields_error_text (clock : string) :
  has_sentinel garbled_text = false
  ∧ negative_signal garbled_text = false
  ∧ Json.loads (strip_fences (strip garbled_text))
    = Raised (JSONDecodeError "Expecting value")
  ∧ normalize Json.loads clock garbled_text = Raised (NameError "datetime")
  ∧ detect_municipal_issue (replay_world (Some "key") garbled_text)
      (SourceImage rgb_image) []
    = (Returned (VStr "Error: Unable to analyze image - name 'datetime' is not defined"),
       [GenaiSetup "key"; GenerateContent rgb_image]).
Proof.
  assert (Hs : has_sentinel garbled_text = false) by (vm_compute; reflexivity).
  assert (Hn : negative_signal garbled_text = false) by (vm_compute; reflexivity).
  assert (Hl : Json.loads (strip_fences (strip garbled_text))
               = Raised (JSONDecodeError "Expecting value"))
    by (vm_compute; reflexivity).
  split; [exact Hs|]. split; [exact Hn|]. split; [exact Hl|]. split.
  - exact (fallback_path_raises _ _ _ _ Hs Hl Hn).
  - vm_compute. reflexivity.
Qed.

(** ** Validation *)

(** C2. Validation of a decoded object always returns a report; whatever
    validation returns, and whatever dict [normalize] returns, has under
    [department] one of the fourteen departments and under [priority] one of
    the four levels: a value supplied in the set is kept, any other value,
    or none, becomes [BUILDING], respectively [MEDIUM]. *)
Theorem report_department_and_priority_in_closed_sets (clock : string) :
  valid_departments
  = [ "FIRE"; "WATER"; "ELECTRIC"; "ROADS"; "WASTE"; "PARKS"; "BUILDING";
      "HEALTH"; "TRANSPORT"; "TRAFFIC"; "EDUCATION"; "CIVIC INFRASTRUCTURE";
      "COMMUNICATION"; "DISASTER RELIEF" ]
  ∧ valid_priorities = [ "CRITICAL"; "HIGH"; "MEDIUM"; "LOW" ]
  ∧ (∀ d : gmap string value, ∃ d' : gmap string value,
       _validate_and_enhance_result clock (VDict d) = Returned (VDict d')
       ∧ d' !! "department"
         = Some (coerced valid_departments "BUILDING" (d !! "department"))
       ∧ d' !! "priority"
         = Some (coerced valid_priorities "MEDIUM" (d !! "priority")))
  ∧ (∀ v r, _validate_and_enhance_result clock v = Returned r →
       ∃ (d : gmap string value) dep pri,
         r = VDict d
         ∧ d !! "department" = Some (VStr dep) ∧ dep ∈ valid_departments
         ∧ d !! "priority" = Some (VStr pri) ∧ pri ∈ valid_priorities)
  ∧ (∀ loads text (d : gmap string value),
       normalize loads clock text = Returned (VDict d) →
       ∃ dep pri,
         d !! "department" = Some (VStr dep) ∧ dep ∈ valid_departments
         ∧ d !! "priority" = Some (VStr pri) ∧ pri ∈ valid_priorities).
Proof.
  assert (Hval : ∀ v r, _validate_and_enhance_result clock v = Returned r →
       ∃ (d : gmap string value) dep pri,
         r = VDict d
         ∧ d !! "department" = Some (VStr dep) ∧ dep ∈ valid_departments
         ∧ d !! "priority" = Some (VStr pri) ∧ pri ∈ valid_priorities).
  { intros v r Hr. destruct (dict_or_not v) as [[d ->]|Hnd].
    - destruct (validate_dict clock d) as (d' & Hd & Hdep & Hpri & _).
      destruct (coerced_valid valid_departments "BUILDING" (d !! "department"))
        as (dep & Edep & Idep); [compute_done|].
      destruct (coerced_valid valid_priorities "MEDIUM" (d !! "priority"))
        as (pri & Epri & Ipri); [compute_done|].
      exists d', dep, pri. rewrite Hdep, Hpri, Edep, Epri.
      repeat split; try done. congruence.
    - destruct (validate_non_dict v Hnd) as [m Hm]. congruence. }
  split; [reflexivity|]. split; [reflexivity|]. split; [|split; [exact Hval|]].
  - intros d. destruct (validate_dict clock d) as (d' & Hd & Hdep & Hpri & _).
    by exists d'.
  - intros loads text d Hn. destruct (has_sentinel text) eqn:Hs.
    { rewrite normalize_sentinel in Hn by done. discriminate. }
    destruct (loads (strip_fences (strip text))) as [x|e] eqn:Hl.
    + rewrite (normalize_parsed _ _ _ _ Hs Hl) in Hn.
      destruct (Hval _ _ Hn) as (d' & dep & pri & [= <-] & H). eauto.
    + destruct e as [msg| | | | | |];
        try (rewrite (normalize_decoder_fault _ _ _ _ Hs Hl) in Hn by done;
             discriminate).
      rewrite (normalize_undecodable _ _ _ _ Hs Hl) in Hn.
      destruct (negative_signal text); discriminate.
Qed.

Lemma closed_sets_example :
  ∃ r, _validate_and_enhance_result "2024-05-01T12:00:00"
         (VDict {[ "department" := VStr "LIBRARY"; "priority" := VInt 7 ]})
       = Returned r
     ∧ ∃ (d : gmap string value) dep pri,
         r = VDict d
         ∧ d !! "department" = Some (VStr dep) ∧ dep ∈ valid_departments
         ∧ d !! "priority" = Some (VStr pri) ∧ pri ∈ valid_priorities.
Proof.
  eexists. split; [vm_compute; reflexivity|].
  apply (proj1 (proj2 (proj2 (proj2
           (report_department_and_priority_in_closed_sets "2024-05-01T12:00:00")))))
    with (v := VDict {[ "department" := VStr "LIBRARY"; "priority" := VInt 7 ]}).
  vm_compute. reflexivity.
Defined.

(** C8. On a decoded object validation writes five keys at most.  Under
    [timestamp] it puts the time of the call and under [status] [PENDING],
    whatever the model put there; a [description] supplied, a [department]
    and a [priority] supplied in their sets are kept; every other key has
    the value the model gave it, and no key is added besides. *)
Theorem validation_frame (clock : string) (d : gmap string value) :
  ∃ d' : gmap string value,
    _validate_and_enhance_result clock (VDict d) = Returned (VDict d')
    ∧ d' !! "timestamp" = Some (VStr clock)
    ∧ d' !! "status" = Some (VStr "PENDING")
    ∧ (∀ k, k ∉ [ "department"; "priority"; "description"; "timestamp";
                  "status" ] → d' !! k = d !! k)
    ∧ (∀ v, d !! "description" = Some v → d' !! "description" = Some v)
    ∧ (∀ v, d !! "department" = Some v → in_strs v valid_departments = true →
            d' !! "department" = Some v)
    ∧ (∀ v, d !! "priority" = Some v → in_strs v valid_priorities = true →
            d' !! "priority" = Some v).
Proof.
  destruct (validate_dict clock d)
    as (d' & Hd & Hdep & Hpri & Hdes & Hts & Hst & Hframe).
  exists d'. repeat split; try done.
  - intros v Hv. by rewrite Hdes, Hv.
  - intros v Hv Hin. rewrite Hdep, Hv. cbn [coerced]. by rewrite Hin.
  - intros v Hv Hin. rewrite Hpri, Hv. cbn [coerced]. by rewrite Hin.
Qed.

Lemma validation_frame_example :
  let supplied : gmap string value :=
    {[ "department" := VStr "WATER"; "priority" := VStr "HIGH";
       "description" := VNone; "timestamp" := VStr "1999-01-01";
       "status" := VStr "RESOLVED"; "confidence_score" := VFloat "0.9";
       "location_details" := VStr "Main St" ]} in
  ∃ d' : gmap string value,
    _validate_and_enhance_result "2024-05-01T12:00:00" (VDict supplied)
    = Returned (VDict d')
    ∧ d' !! "timestamp" = Some (VStr "2024-05-01T12:00:00")
    ∧ d' !! "status" = Some (VStr "PENDING")
    ∧ d' !! "confidence_score" = Some (VFloat "0.9")
    ∧ d' !! "location_details" = Some (VStr "Main St")
    ∧ d' !! "severity" = None
    ∧ d' !! "description" = Some VNone
    ∧ d' !! "department" = Some (VStr "WATER")
    ∧ d' !! "priority" = Some (VStr "HIGH").
Proof.
  intros supplied.
  destruct (validation_frame "2024-05-01T12:00:00" supplied)
    as (d' & Hd & Hts & Hst & Hframe & Hdes & Hdep & Hpri).
  exists d'. split; [exact Hd|]. split; [exact Hts|]. split; [exact Hst|].
  split; [rewrite Hframe; [reflexivity | compute_done]|].
  split; [rewrite Hframe; [reflexivity | compute_done]|].
  split; [rewrite Hframe; [reflexivity | compute_done]|].
  split; [apply Hdes; reflexivity|].
  split; [apply Hdep; reflexivity | apply Hpri; reflexivity].
Defined.

(** C3. On [{"department":"BOGUS","priority":"SUPERHIGH"}] [normalize]
    returns a report with department [BUILDING], priority [MEDIUM] and
    description [UNKNOWN].  In general the loop over the required keys first
    puts [UNKNOWN] under each of [department], [priority] and [description]
    that is missing, and a department or priority that is then outside its
    set is replaced by the default, so that a missing one ends as the
    default too. *)
Theorem missing_keys_unknown_then_coerced (clock : string) :
  (∃ d : gmap string value,
     normalize Json.loads clock bogus_text = Returned (VDict d)
     ∧ d !! "department" = Some (VStr "BUILDING")
     ∧ d !! "priority" = Some (VStr "MEDIUM")
     ∧ d !! "description" = Some (VStr "UNKNOWN"))
  ∧ ∀ d : gmap string value, ∃ d1 d' : gmap string value,
      ensure_fields ["department"; "priority"; "description"] (VDict d)
      = Returned (VDict d1)
      ∧ (∀ k, k ∈ ["department"; "priority"; "description"] →
              d1 !! k = Some (default (VStr "UNKNOWN") (d !! k)))
      ∧ _validate_and_enhance_result clock (VDict d) = Returned (VDict d')
      ∧ d' !! "description" = d1 !! "description"
      ∧ (∀ v, d1 !! "department" = Some v →
              d' !! "department"
              = Some (if in_strs v valid_departments then v else VStr "BUILDING"))
      ∧ (∀ v, d1 !! "priority" = Some v →
              d' !! "priority"
              = Some (if in_strs v valid_priorities then v else VStr "MEDIUM"))
      ∧ (d !! "department" = None → d' !! "department" = Some (VStr "BUILDING"))
      ∧ (d !! "priority" = None → d' !! "priority" = Some (VStr "MEDIUM")).
Proof.
  assert (Hgen : ∀ d : gmap string value, ∃ d1 d' : gmap string value,
      ensure_fields ["department"; "priority"; "description"] (VDict d)
      = Returned (VDict d1)
      ∧ (∀ k, k ∈ ["department"; "priority"; "description"] →
              d1 !! k = Some (default (VStr "UNKNOWN") (d !! k)))
      ∧ _validate_and_enhance_result clock (VDict d) = Returned (VDict d')
      ∧ d' !! "description" = d1 !! "description"
      ∧ (∀ v, d1 !! "department" = Some v →
              d' !! "department"
              = Some (if in_strs v valid_departments then v else VStr "BUILDING"))
      ∧ (∀ v, d1 !! "priority" = Some v →
              d' !! "priority"
              = Some (if in_strs v valid_priorities then v else VStr "MEDIUM"))
      ∧ (d !! "department" = None → d' !! "department" = Some (VStr "BUILDING"))
      ∧ (d !! "priority" = None → d' !! "priority" = Some (VStr "MEDIUM"))).
  { intros d.
    destruct (ensure_fields_dict ["department"; "priority"; "description"] d)
      as (d1 & H1 & Hlook).
    destruct (validate_dict clock d)
      as (d' & Hd & Hdep & Hpri & Hdes & _).
    assert (Hreq : ∀ k, k ∈ ["department"; "priority"; "description"] →
               d1 !! k = Some (default (VStr "UNKNOWN") (d !! k))).
    { intros k Hk. rewrite Hlook. destruct (d !! k); [done|].
      by rewrite bool_decide_eq_true_2. }
    destruct unknown_not_valid as [Hud Hup].
    exists d1, d'. split; [exact H1|]. split; [exact Hreq|].
    split; [exact Hd|]. split.
    { rewrite Hdes. symmetry. apply Hreq. compute_done. }
    split; [|split; [|split]].
    - intros v Hv. rewrite Hreq in Hv by compute_done. injection Hv as <-.
      rewrite Hdep. f_equal. symmetry. by apply coerced_default.
    - intros v Hv. rewrite Hreq in Hv by compute_done. injection Hv as <-.
      rewrite Hpri. f_equal. symmetry. by apply coerced_default.
    - intros Hm. by rewrite Hdep, Hm.
    - intros Hm. by rewrite Hpri, Hm. }
  split; [|exact Hgen].
  assert (Hs : has_sentinel bogus_text = false) by (vm_compute; reflexivity).
  assert (Hl : Json.loads (strip_fences (strip bogus_text))
               = Returned (VDict {[ "department" := VStr "BOGUS";
                                    "priority" := VStr "SUPERHIGH" ]}))
    by (vm_compute; reflexivity).
  rewrite (normalize_parsed _ _ _ _ Hs Hl).
  destruct (validate_dict clock {[ "department" := VStr "BOGUS";
                                  "priority" := VStr "SUPERHIGH" ]})
    as (d' & Hd & Hdep & Hpri & Hdes & _).
  exists d'. split; [exact Hd|]. by rewrite Hdep, Hpri, Hdes.
Qed.

Lemma missing_keys_example :
  ∃ d1 d' : gmap string value,
    ensure_fields ["department"; "priority"; "description"]
      (VDict {[ "priority" := VStr "LOW" ]}) = Returned (VDict d1)
    ∧ d1 !! "department" = Some (VStr "UNKNOWN")
    ∧ d1 !! "priority" = Some (VStr "LOW")
    ∧ d1 !! "description" = Some (VStr "UNKNOWN")
    ∧ _validate_and_enhance_result "2024-05-01T12:00:00"
        (VDict {[ "priority" := VStr "LOW" ]}) = Returned (VDict d')
    ∧ d' !! "department" = Some (VStr "BUILDING")
    ∧ d' !! "priority" = Some (VStr "LOW")
    ∧ d' !! "description" = Some (VStr "UNKNOWN").
Proof.
  destruct (proj2 (missing_keys_unknown_then_coerced "2024-05-01T12:00:00")
              {[ "priority" := VStr "LOW" ]})
    as (d1 & d' & H1 & Hreq & Hd & Hdes & Hdep & Hpri & Hmd & Hmp).
  exists d1, d'.
  assert (E1 : d1 !! "department" = Some (VStr "UNKNOWN"))
    by (rewrite Hreq; [reflexivity | compute_done]).
  assert (E2 : d1 !! "priority" = Some (VStr "LOW"))
    by (rewrite Hreq; [reflexivity | compute_done]).
  assert (E3 : d1 !! "description" = Some (VStr "UNKNOWN"))
    by (rewrite Hreq; [reflexivity | compute_done]).
  split; [exact H1|]. split; [exact E1|]. split; [exact E2|].
  split; [exact E3|]. split; [exact Hd|].
  split; [apply Hmd; reflexivity|].
  split; [rewrite (Hpri _ E2); reflexivity|].
  rewrite Hdes. exact E3.
Defined.

(** C5. On the object with [FIRE], [CRITICAL] and [x] inside a fenced block
    tagged [json], the seven characters of the opening fence and the three
    of the closing one are removed, what is left decodes, and [normalize]
    returns a report with these three values, status [PENDING] and the time
    of the call as timestamp.  In general a department and a priority that
    are in their sets come out of validation as they went in. *)
Theorem fenced_report_passes_through (clock : string) :
  strip_fences (strip fenced_fire_text)
  = String newline (fire_object_text +:+ String newline EmptyString)
  ∧ strip_fences (strip fenced_fire_text)
    = slice_to_neg 3 (slice_from 7 fenced_fire_text)
  ∧ (∃ d : gmap string value,
       normalize Json.loads clock fenced_fire_text = Returned (VDict d)
       ∧ d !! "department" = Some (VStr "FIRE")
       ∧ d !! "priority" = Some (VStr "CRITICAL")
       ∧ d !! "description" = Some (VStr "x")
       ∧ d !! "status" = Some (VStr "PENDING")
       ∧ d !! "timestamp" = Some (VStr clock))
  ∧ ∀ (d : gmap string value) dep pri,
      d !! "department" = Some (VStr dep) → dep ∈ valid_departments →
      d !! "priority" = Some (VStr pri) → pri ∈ valid_priorities →
      ∃ d' : gmap string value,
        _validate_and_enhance_result clock (VDict d) = Returned (VDict d')
        ∧ d' !! "department" = Some (VStr dep)
        ∧ d' !! "priority" = Some (VStr pri).
Proof.
  split; [vm_compute; reflexivity|]. split; [vm_compute; reflexivity|]. split.
  - assert (Hs : has_sentinel fenced_fire_text = false) by (vm_compute; reflexivity).
    assert (Hl : Json.loads (strip_fences (strip fenced_fire_text))
                 = Returned (VDict {[ "department" := VStr "FIRE";
                                      "priority" := VStr "CRITICAL";
                                      "description" := VStr "x" ]}))
      by (vm_compute; reflexivity).
    rewrite (normalize_parsed _ _ _ _ Hs Hl).
    destruct (validate_dict clock {[ "department" := VStr "FIRE";
                                    "priority" := VStr "CRITICAL";
                                    "description" := VStr "x" ]})
      as (d' & Hd & Hdep & Hpri & Hdes & Hts & Hst & _).
    exists d'. split; [exact Hd|]. by rewrite Hdep, Hpri, Hdes, Hts, Hst.
  - intros d dep pri Hdep Idep Hpri Ipri.
    destruct (validate_dict clock d) as (d' & Hd & Hdep' & Hpri' & _).
    exists d'. split; [exact Hd|].
    rewrite Hdep', Hpri', Hdep, Hpri. cbn [coerced].
    rewrite (proj2 (in_strs_elem (VStr dep) valid_departments)) by eauto.
    by rewrite (proj2 (in_strs_elem (VStr pri) valid_priorities)) by eauto.
Qed.

Lemma in_set_values_example :
  ∃ d' : gmap string value,
    _validate_and_enhance_result "2024-05-01T12:00:00"
      (VDict {[ "department" := VStr "DISASTER RELIEF";
                "priority" := VStr "LOW" ]}) = Returned (VDict d')
    ∧ d' !! "department" = Some (VStr "DISASTER RELIEF")
    ∧ d' !! "priority" = Some (VStr "LOW").
Proof.
  apply (proj2 (proj2 (proj2
           (fenced_report_passes_through "2024-05-01T12:00:00"))));
    first [reflexivity | compute_done].
Defined.

(** ** Determinism *)

(** C9. The same answer normalised at two times gives two results of the
    same kind: the same message, the same exception, or two dicts that are
    equal once the [timestamp] entry is left out.  The same holds of the
    fallback record, whatever the module binds. *)
Theorem normalize_deterministic_up_to_timestamp
    (loads : string → outcome value) (globals : list string)
    (clock1 clock2 text : string) :
  outcome_map without_timestamp (normalize loads clock1 text)
  = outcome_map without_timestamp (normalize loads clock2 text)
  ∧ outcome_map without_timestamp
      (create_fallback_response_in clock1 globals text)
    = outcome_map without_timestamp
        (create_fallback_response_in clock2 globals text).
Proof.
  split; cycle 1.
  { unfold create_fallback_response_in.
    destruct (load_global globals "datetime") as [[]|e]; [|done].
    cbn [bind outcome_map without_timestamp].
    by rewrite (fallback_record_up_to_timestamp clock1 clock2). }
  destruct (has_sentinel text) eqn:Hs.
  { by rewrite !normalize_sentinel. }
  destruct (loads (strip_fences (strip text))) as [x|e] eqn:Hl.
  - rewrite !(normalize_parsed _ _ _ _ Hs Hl).
    destruct (dict_or_not x) as [[d ->]|Hnd].
    + destruct (validate_dict clock1 d)
        as (d1 & -> & Hdep1 & Hpri1 & Hdes1 & _ & Hst1 & Hframe1).
      destruct (validate_dict clock2 d)
        as (d2 & -> & Hdep2 & Hpri2 & Hdes2 & _ & Hst2 & Hframe2).
      cbn [outcome_map without_timestamp]. do 2 f_equal.
      apply map_eq. intros k.
      destruct (decide (k = "timestamp")) as [->|Hts].
      { by rewrite !lookup_delete_eq. }
      rewrite !lookup_delete_ne by done.
      destruct (decide (k ∈ written_keys)) as [Hk|Hk].
      * unfold written_keys in Hk. rewrite !elem_of_cons in Hk.
        destruct Hk as [->|[->|[->|[->|[->|Hk]]]]]; try congruence.
        by apply elem_of_nil in Hk.
      * by rewrite Hframe1, Hframe2.
    + destruct (validate_non_dict x Hnd) as [m Hm]. by rewrite !Hm.
  - destruct e as [msg| | | | | |];
      try (by rewrite !(normalize_decoder_fault _ _ _ _ Hs Hl)).
    by rewrite !(normalize_undecodable _ _ _ _ Hs Hl).
Qed.

(** * Further properties of the code *)

(** ** Texts *)

Section TextFacts.

Local Open Scope nat_scope.

Lemma app_empty (b : string) : EmptyString +:+ b = b.
Proof. reflexivity. Qed.

Lemma app_cons (c : ascii) (a b : string) :
  String c a +:+ b = String c (a +:+ b).
Proof. reflexivity. Qed.

Lemma length_app (a b : string) :
  String.length (a +:+ b) = String.length a + String.length b.
Proof.
  induction a as [|c a IH]; [done|].
  rewrite app_cons. cbn [String.length]. by rewrite IH.
Qed.

Lemma app_assoc_str (a b c : string) : (a +:+ b) +:+ c = a +:+ (b +:+ c).
Proof.
  induction a as [|x a IH]; [done|]. rewrite !app_cons. by rewrite IH.
Qed.

Lemma prefix_empty (s : string) : String.prefix EmptyString s = true.
Proof. by destruct s. Qed.

Lemma slice_from_app (a b : string) : slice_from (String.length a) (a +:+ b) = b.
Proof.
  induction a as [|c a IH]; [by destruct b|].
  rewrite app_cons. exact IH.
Qed.

Lemma substring_app (a b : string) : substring 0 (String.length a) (a +:+ b) = a.
Proof.
  induction a as [|c a IH]; [by destruct b|].
  rewrite app_cons. cbn [String.length substring]. by rewrite IH.
Qed.

Lemma substring_length (n : nat) (s : string) :
  String.length (substring 0 n s) = Nat.min n (String.length s).
Proof.
  revert s. induction n as [|n IH]; intros [|c s]; try done.
  cbn [substring String.length Nat.min]. by rewrite IH.
Qed.

Lemma substring_prefix (n : nat) (s : string) :
  String.prefix (substring 0 n s) s = true.
Proof.
  revert s. induction n as [|n IH]; intros [|c s]; try done.
  cbn [substring String.prefix].
  destruct (ascii_dec c c); [apply IH|done].
Qed.

Lemma lstrip_spaces (ws s : string) :
  all_space ws = true → lstrip (ws +:+ s) = lstrip s.
Proof.
  induction ws as [|c ws IH]; [done|].
  cbn [all_space]. intros [Hc Hws]%andb_prop.
  rewrite app_cons. cbn [lstrip]. rewrite Hc. by apply IH.
Qed.

Lemma rstrip_all_space (ws : string) :
  all_space ws = true → rstrip ws = EmptyString.
Proof.
  induction ws as [|c ws IH]; [done|].
  cbn [all_space rstrip]. intros [Hc Hws]%andb_prop. by rewrite IH, Hc.
Qed.

Lemma rstrip_spaces (s ws : string) :
  all_space ws = true → rstrip (s +:+ ws) = rstrip s.
Proof.
  intros Hws. induction s as [|c s IH]; [by apply rstrip_all_space|].
  rewrite app_cons. cbn [rstrip]. by rewrite IH.
Qed.

Lemma rstrip_keeps (a : string) (c : ascii) :
  isspace c = false →
  rstrip (a +:+ String c EmptyString) = a +:+ String c EmptyString.
Proof.
  intros Hc. induction a as [|x a IH].
  - rewrite app_empty. cbn [rstrip]. by rewrite Hc.
  - rewrite app_cons. cbn [rstrip]. rewrite IH. by destruct a.
Qed.

End TextFacts.

(** Trimming and the two fence removals on a fenced block with white
    space around it. *)
Lemma strip_fenced_block (ws1 ws2 body : string) :
  all_space ws1 = true → all_space ws2 = true →
  strip_fences (strip (ws1 +:+ "```json" +:+ body +:+ "```" +:+ ws2)) = body.
Proof.
  intros H1 H2.
  assert (Hstrip : strip (ws1 +:+ "```json" +:+ body +:+ "```" +:+ ws2)
                   = "```json" +:+ body +:+ "```").
  { unfold strip. rewrite (lstrip_spaces _ _ H1).
    change (lstrip ("```json" +:+ body +:+ "```" +:+ ws2))
      with ("```json" +:+ body +:+ "```" +:+ ws2).
    replace ("```json" +:+ body +:+ "```" +:+ ws2)
      with ((("```json" +:+ body +:+ "``") +:+ "`") +:+ ws2)
      by (by rewrite !app_assoc_str).
    rewrite (rstrip_spaces _ _ H2), rstrip_keeps by done.
    by rewrite !app_assoc_str. }
  rewrite Hstrip. unfold strip_fences.
  change (startswith "```json" ("```json" +:+ body +:+ "```"))
    with (String.prefix EmptyString (body +:+ "```")).
  rewrite prefix_empty.
  change (slice_from 7 ("```json" +:+ body +:+ "```")) with (body +:+ "```").
  unfold endswith, slice_to_neg. rewrite !length_app. cbn [String.length].
  replace (String.length body + 3 - 3)%nat with (String.length body) by lia.
  rewrite slice_from_app, substring_app, String.eqb_refl.
  by rewrite (proj2 (Nat.leb_le _ _)) by lia.
Qed.

(** X1. An answer that is a fenced block tagged [json], with any white space
    around it, is decoded as the body of the block: trimming and the two
    fence removals give back exactly what stands between the fences. *)
Theorem fenced_body_recovered (ws1 ws2 body : string) :
  all_space ws1 = true → all_space ws2 = true →
  strip_fences (strip (ws1 +:+ "```json" +:+ body +:+ "```" +:+ ws2)) = body.
Proof. apply strip_fenced_block. Qed.

Lemma fenced_body_recovered_example :
  strip_fences (strip (String newline "  " +:+ "```json" +:+ "[1, 2]" +:+ "```"
                       +:+ String newline EmptyString))
  = "[1, 2]".
Proof. apply fenced_body_recovered; reflexivity. Defined.

(** X2. The value computed for the [description] entry of the fallback
    record is the answer itself up to 200 characters, and the first 200
    characters followed by three dots beyond: never more than 203
    characters, and for an answer of 201 or 202 characters longer than the
    answer. *)
Theorem fallback_description_bounds (raw_response : string) :
  (String.length (fallback_description raw_response) ≤ 203)%nat
  ∧ ((String.length raw_response ≤ 200)%nat →
     fallback_description raw_response = raw_response)
  ∧ ((200 < String.length raw_response)%nat →
     (∃ head, fallback_description raw_response = head +:+ "..."
              ∧ String.length head = 200%nat
              ∧ String.prefix head raw_response = true)
     ∧ String.length (fallback_description raw_response) = 203%nat).
Proof.
  unfold fallback_description, slice_to.
  destruct (200 <? String.length raw_response)%nat eqn:Hlen.
  - apply Nat.ltb_lt in Hlen.
    assert (Hh : String.length (substring 0 200 raw_response) = 200%nat)
      by (rewrite substring_length; lia).
    split; [rewrite length_app, Hh; cbn; lia|]. split; [lia|].
    intros _. split; [|rewrite length_app, Hh; cbn; lia].
    eexists. split; [reflexivity|]. split; [done|]. apply substring_prefix.
  - apply Nat.ltb_ge in Hlen. split; [lia|]. split; [done|lia].
Qed.

Lemma fallback_description_examples :
  fallback_description (repeat_str "a" 200) = repeat_str "a" 200
  ∧ String.length (fallback_description (repeat_str "a" 201)) = 203%nat.
Proof.
  split.
  - apply (proj1 (proj2 (fallback_description_bounds (repeat_str "a" 200)))).
    apply Nat.leb_le. vm_compute. reflexivity.
  - apply (proj2 (proj2 (fallback_description_bounds (repeat_str "a" 201)))).
    apply Nat.ltb_lt. vm_compute. reflexivity.
Defined.

(** ** Validation, again *)

Lemma coerced_in_set (valid : list string) (fallback : string)
    (supplied : option value) :
  fallback ∈ valid → in_strs (coerced valid fallback supplied) valid = true.
Proof.
  intros Hf. apply in_strs_elem. by apply coerced_valid.
Qed.

(** X3. Validating a report that validation produced changes nothing but the
    timestamp: at another time the report comes back with the new time under
    [timestamp], and at the same time it comes back as it is. *)
Theorem revalidation_refreshes_timestamp
    (clock clock' : string) (d d' : gmap string value) :
  _validate_and_enhance_result clock (VDict d) = Returned (VDict d') →
  _validate_and_enhance_result clock' (VDict d')
  = Returned (VDict (<["timestamp" := VStr clock']> d'))
  ∧ _validate_and_enhance_result clock (VDict d') = Returned (VDict d').
Proof.
  intros Hd.
  destruct (validate_dict clock d)
    as (d0 & Hd0 & Hdep & Hpri & Hdes & Hts & Hst & Hframe).
  assert (d0 = d') as -> by congruence. clear Hd0.
  assert (Hre : ∀ c, _validate_and_enhance_result c (VDict d')
                     = Returned (VDict (<["timestamp" := VStr c]> d'))).
  { intros c.
    destruct (validate_dict c d')
      as (d2 & -> & Hdep2 & Hpri2 & Hdes2 & Hts2 & Hst2 & Hframe2).
    do 2 f_equal. apply map_eq. intros k.
    destruct (decide (k = "timestamp")) as [->|Hk].
    { by rewrite lookup_insert_eq. }
    rewrite lookup_insert_ne by done.
    destruct (decide (k ∈ written_keys)) as [Hin|Hout]; [|by apply Hframe2].
    unfold written_keys in Hin. rewrite !elem_of_cons in Hin.
    destruct Hin as [->|[->|[->|[->|[->|Hin]]]]]; try done.
    - rewrite Hdep2, Hdep. cbn [coerced].
      by rewrite coerced_in_set by compute_done.
    - rewrite Hpri2, Hpri. cbn [coerced].
      by rewrite coerced_in_set by compute_done.
    - by rewrite Hdes2, Hdes.
    - by rewrite Hst2, Hst.
    - by apply elem_of_nil in Hin. }
  split; [apply Hre|]. rewrite Hre. by rewrite insert_id.
Qed.

Lemma revalidation_example :
  let report : gmap string value :=
    {[ "department" := VStr "BUILDING"; "priority" := VStr "LOW";
       "description" := VStr "UNKNOWN";
       "timestamp" := VStr "2024-05-01T12:00:00";
       "status" := VStr "PENDING" ]} in
  _validate_and_enhance_result "2024-05-01T12:00:00"
    (VDict {[ "department" := VStr "parks"; "priority" := VStr "LOW" ]})
  = Returned (VDict report)
  ∧ _validate_and_enhance_result "2024-05-02T08:30:00" (VDict report)
    = Returned (VDict (<["timestamp" := VStr "2024-05-02T08:30:00"]> report))
  ∧ _validate_and_enhance_result "2024-05-01T12:00:00" (VDict report)
    = Returned (VDict report).
Proof.
  intros report.
  assert (H : _validate_and_enhance_result "2024-05-01T12:00:00"
                (VDict {[ "department" := VStr "parks"; "priority" := VStr "LOW" ]})
              = Returned (VDict report)) by (vm_compute; reflexivity).
  split; [exact H|].
  exact (revalidation_refreshes_timestamp _ "2024-05-02T08:30:00" _ _ H).
Defined.

(** X4. Validation never drops a key: the keys of the report are the keys of
    the decoded object together with [department], [priority],
    [description], [timestamp] and [status]. *)
Theorem validation_key_set (clock : string) (d d' : gmap string value) :
  _validate_and_enhance_result clock (VDict d) = Returned (VDict d') →
  dom d' = dom d ∪ list_to_set [ "department"; "priority"; "description";
                                 "timestamp"; "status" ].
Proof.
  intros Hd.
  destruct (validate_dict clock d)
    as (d0 & Hd0 & Hdep & Hpri & Hdes & Hts & Hst & Hframe).
  assert (d0 = d') as -> by congruence. clear Hd0.
  apply set_eq. intros k.
  rewrite elem_of_union, !elem_of_dom, elem_of_list_to_set.
  destruct (decide (k ∈ written_keys)) as [Hin|Hout].
  - split; [by right|]. intros _.
    unfold written_keys in Hin. rewrite !elem_of_cons in Hin.
    destruct Hin as [->|[->|[->|[->|[->|Hin]]]]]; eauto.
    by apply elem_of_nil in Hin.
  - rewrite (Hframe _ Hout). unfold written_keys in Hout. tauto.
Qed.

Lemma validation_key_set_example :
  let supplied : gmap string value := {[ "severity" := VInt 3 ]} in
  let report : gmap string value :=
    {[ "severity" := VInt 3; "department" := VStr "BUILDING";
       "priority" := VStr "MEDIUM"; "description" := VStr "UNKNOWN";
       "timestamp" := VStr "2024-05-01T12:00:00";
       "status" := VStr "PENDING" ]} in
  _validate_and_enhance_result "2024-05-01T12:00:00" (VDict supplied)
  = Returned (VDict report)
  ∧ dom report = dom supplied
                 ∪ list_to_set [ "department"; "priority"; "description";
                                 "timestamp"; "status" ].
Proof.
  intros supplied report.
  assert (H : _validate_and_enhance_result "2024-05-01T12:00:00" (VDict supplied)
              = Returned (VDict report)) by (vm_compute; reflexivity).
  split; [exact H|]. exact (validation_key_set _ _ _ H).
Defined.

(** ** The order of the tests in [normalize] *)

(** X5. The negative phrases are looked for only when decoding fails: an
    answer without sentinel that decodes to an object gives the validated
    report, whatever phrases it has inside. *)
Theorem decoded_object_is_reported
    (loads : string → outcome value) (clock text : string)
    (d : gmap string value) :
  has_sentinel text = false →
  loads (strip_fences (strip text)) = Returned (VDict d) →
  ∃ d' : gmap string value,
    normalize loads clock text = Returned (VDict d')
    ∧ _validate_and_enhance_result clock (VDict d) = Returned (VDict d')
    ∧ d' !! "status" = Some (VStr "PENDING").
Proof.
  intros Hs Hl. rewrite (normalize_parsed _ _ _ _ Hs Hl).
  destruct (validate_dict clock d) as (d' & Hd & _ & _ & _ & _ & Hst & _).
  by exists d'.
Qed.

Lemma decoded_object_with_phrase :
  let text := "{" +:+ quoted "department" +:+ ":" +:+ quoted "PARKS" +:+ ","
              +:+ quoted "description" +:+ ":"
              +:+ quoted "Broken bench, no civic staff or personal item in sight"
              +:+ "}" in
  negative_signal text = true
  ∧ ∃ d' : gmap string value,
      normalize Json.loads "2024-05-01T12:00:00" text = Returned (VDict d')
      ∧ d' !! "status" = Some (VStr "PENDING").
Proof.
  intros text. split; [vm_compute; reflexivity|].
  destruct (decoded_object_is_reported Json.loads "2024-05-01T12:00:00" text
              {[ "department" := VStr "PARKS";
                 "description" :=
                   VStr "Broken bench, no civic staff or personal item in sight" ]})
    as (d' & Hn & _ & Hst); [vm_compute; reflexivity..|].
  by exists d'.
Defined.

(** ** Getting the picture *)

Section Acquisition.

Variable w : world.

(** Getting the picture makes the calls of [acquire_events], whether it
    succeeds or not. *)
Lemma acquire_image_trace source trace :
  (acquire_image w source trace).2 = (trace ++ acquire_events source)%list.
Proof.
  unfold acquire_image, prog_bind, load_image_from_url, try_except,
    prog_bind, call, lift, ret, raise, acquire_events, is_url.
  destruct source as [s|img|]; cbn [snd]; rewrite ?app_nil_r.
  - destruct (startswith "http://" s || startswith "https://" s).
    + destruct (requests_get w s) as [r|e]; [|done].
      destruct (raise_for_status w r) as [[]|e]; [|done].
      destruct (image_from_bytes w (content r)) as [img|e]; [|done].
      by destruct (negb _).
    + destruct (image_open w s) as [img|e]; [|done].
      by destruct (negb _).
  - by destruct (negb _).
  - done.
Qed.

(** The picture handed on is in RGB mode already, or it is what the
    conversion of one that is not returned. *)
Lemma acquire_image_mode source trace img trace' :
  acquire_image w source trace = (Returned img, trace') →
  (mode img = "RGB" ∧ ∀ i, source = SourceImage i → img = i)
  ∨ ∃ i0, mode i0 ≠ "RGB" ∧ image_convert_rgb w i0 = Returned img.
Proof.
  unfold acquire_image, prog_bind at 1.
  match goal with
  | |- match ?x with _ => _ end = _ → _ =>
      destruct x as [[i0|e] t0] eqn:Hload; [|done]
  end.
  destruct (String.eqb (mode i0) "RGB") eqn:Hmode; cbn [negb].
  - apply String.eqb_eq in Hmode. unfold ret. intros [= <- <-]. left.
    split; [done|]. intros i ->. unfold ret in Hload. congruence.
  - apply String.eqb_neq in Hmode. unfold lift. intros [= Hc <-]. eauto.
Qed.

End Acquisition.

(** X6. A [str] that starts with [http://] or [https://], in lower case, is
    downloaded and never opened as a file; any other [str] is opened as a
    file and never downloaded.  In both cases that is the only call made to
    get the picture, and it is made once. *)
Theorem source_dispatch (w : world) (s : string) (trace : list event) :
  (startswith "http://" s || startswith "https://" s = true →
   (acquire_image w (SourceStr s) trace).2 = (trace ++ [HttpGet s])%list)
  ∧ (startswith "http://" s || startswith "https://" s = false →
     (acquire_image w (SourceStr s) trace).2 = (trace ++ [FileOpen s])%list).
Proof.
  split; intros H; rewrite acquire_image_trace; cbn [acquire_events];
    unfold is_url; by rewrite H.
Qed.

Lemma source_dispatch_examples :
  (acquire_image (replay_world (Some "key") "") (SourceStr "https://example.org/a.png") []).2
  = [HttpGet "https://example.org/a.png"]
  ∧ (acquire_image (replay_world (Some "key") "") (SourceStr "HTTP://EXAMPLE.ORG/A.PNG") []).2
    = [FileOpen "HTTP://EXAMPLE.ORG/A.PNG"].
Proof.
  split.
  - apply (proj1 (source_dispatch _ "https://example.org/a.png" [])). reflexivity.
  - apply (proj2 (source_dispatch _ "HTTP://EXAMPLE.ORG/A.PNG" [])). reflexivity.
Defined.

(** X7. When the picture cannot be had, whatever the reason (transport, HTTP
    status, decoding, missing file, conversion, unsupported argument), the
    analysis returns the error text of that exception and the model is not
    called. *)
Theorem loading_failure_skips_model
    (w : world) (source : image_source) (trace trace' : list event) (e : exn) :
  acquire_image w source trace = (Raised e, trace') →
  analyze_image w source trace = (Returned (VStr (error_message e)), trace')
  ∧ trace' = (trace ++ acquire_events source)%list
  ∧ ∀ img, GenerateContent img ∉ acquire_events source.
Proof.
  intros Hacq. split; [|split].
  - unfold analyze_image, try_except, prog_bind. by rewrite Hacq.
  - pose proof (acquire_image_trace w source trace) as Ht.
    by rewrite Hacq in Ht.
  - intros img. destruct source as [s| |]; cbn [acquire_events].
    + rewrite list_elem_of_singleton. by destruct (is_url s).
    + apply not_elem_of_nil.
    + apply not_elem_of_nil.
Qed.

Lemma loading_failure_example :
  let w := {| getenv := λ _, Some "key";
              genai_setup := λ _, Returned ();
              requests_get := λ _, Returned {| status_code := 404; content := "" |};
              raise_for_status := λ r,
                if (400 <=? status_code r)%nat
                then Raised (OtherError "404 Client Error: Not Found")
                else Returned ();
              image_from_bytes := λ _, Returned rgb_image;
              image_open := λ _, Returned rgb_image;
              image_convert_rgb := λ img, Returned img;
              generate_content := λ _, Returned {| text := Returned "" |};
              json_loads := Json.loads;
              now := "2024-05-01T12:00:00" |} in
  analyze_image w (SourceStr "https://example.org/gone.png") []
  = (Returned (VStr "Error: Unable to analyze image - 404 Client Error: Not Found"),
     [HttpGet "https://example.org/gone.png"]).
Proof.
  intros w.
  apply (loading_failure_skips_model w (SourceStr "https://example.org/gone.png")
           [] [HttpGet "https://example.org/gone.png"]
           (OtherError "404 Client Error: Not Found")).
  reflexivity.
Defined.

(** X8. The picture the model is asked about is in RGB mode already, in
    which case a PIL image given as argument is passed as it is, or it is
    the result of converting a picture that was not. *)
Theorem model_gets_rgb_or_converted
    (w : world) (source : image_source) (trace trace' : list event)
    (img : image) :
  acquire_image w source trace = (Returned img, trace') →
  (mode img = "RGB" ∧ ∀ i, source = SourceImage i → img = i)
  ∨ ∃ i0, mode i0 ≠ "RGB" ∧ image_convert_rgb w i0 = Returned img.
Proof. apply acquire_image_mode. Qed.

Lemma model_gets_rgb_examples :
  let grey := {| mode := "L"; picture := 7 |} in
  acquire_image (replay_world (Some "key") "") (SourceImage grey) []
  = (Returned {| mode := "RGB"; picture := 7 |}, [])
  ∧ ∃ i0, mode i0 ≠ "RGB"
          ∧ image_convert_rgb (replay_world (Some "key") "") i0
            = Returned {| mode := "RGB"; picture := 7 |}.
Proof.
  intros grey. split; [reflexivity|].
  destruct (model_gets_rgb_or_converted (replay_world (Some "key") "")
              (SourceImage grey) [] [] {| mode := "RGB"; picture := 7 |}
              eq_refl) as [[_ Hsame]|Hconv].
  - discriminate (Hsame grey eq_refl).
  - exact Hconv.
Defined.

(** ** After the picture *)

(** X9. When the model call raises, or the answer has no text to read, the
    analysis returns the error text of that exception; the model has been
    called once and is not called again. *)
Theorem model_failure_reported
    (w : world) (source : image_source) (trace trace' : list event)
    (img : image) (e : exn) :
  acquire_image w source trace = (Returned img, trace') →
  (generate_content w img = Raised e
   ∨ ∃ response, generate_content w img = Returned response
                 ∧ text response = Raised e) →
  analyze_image w source trace
  = (Returned (VStr (error_message e)), (trace' ++ [GenerateContent img])%list).
Proof.
  intros Hacq Hfail.
  unfold analyze_image, try_except, prog_bind, call, lift, ret.
  rewrite Hacq. destruct Hfail as [->|(response & -> & ->)]; reflexivity.
Qed.

Lemma model_failure_example :
  let w := {| getenv := λ _, Some "key";
              genai_setup := λ _, Returned ();
              requests_get := λ _, Returned {| status_code := 200; content := "" |};
              raise_for_status := λ _, Returned ();
              image_from_bytes := λ _, Returned rgb_image;
              image_open := λ _, Returned rgb_image;
              image_convert_rgb := λ img, Returned img;
              generate_content := λ _, Raised (OtherError "429 quota exceeded");
              json_loads := Json.loads;
              now := "2024-05-01T12:00:00" |} in
  analyze_image w (SourceStr "street.png") []
  = (Returned (VStr "Error: Unable to analyze image - 429 quota exceeded"),
     [FileOpen "street.png"; GenerateContent rgb_image]).
Proof.
  intros w.
  apply (model_failure_reported w (SourceStr "street.png") []
           [FileOpen "street.png"] rgb_image (OtherError "429 quota exceeded"));
    [reflexivity | left; reflexivity].
Defined.

(** X10. An exception of the decoder that is not a [JSONDecodeError] is not
    taken for a malformed answer: no negative phrase is looked for, no
    fallback is tried, and the analysis returns the error text of that
    exception. *)
Theorem decoder_fault_reported
    (w : world) (source : image_source) (trace trace' : list event)
    (img : image) (response : model_response) (answer : string) (e : exn) :
  acquire_image w source trace = (Returned img, trace') →
  generate_content w img = Returned response →
  text response = Returned answer →
  has_sentinel answer = false →
  json_loads w (strip_fences (strip answer)) = Raised e →
  (∀ msg, e ≠ JSONDecodeError msg) →
  normalize (json_loads w) (now w) answer = Raised e
  ∧ analyze_image w source trace
    = (Returned (VStr (error_message e)), (trace' ++ [GenerateContent img])%list).
Proof.
  intros Hacq Hgen Htext Hs Hl He.
  assert (Hn : normalize (json_loads w) (now w) answer = Raised e)
    by exact (normalize_decoder_fault _ _ _ _ Hs Hl He).
  split; [exact Hn|].
  rewrite (analyze_image_on_answer _ _ _ _ _ _ _ Hacq Hgen Htext).
  by rewrite Hn.
Qed.

Lemma decoder_fault_example :
  let w := with_decoder (λ _, Raised RecursionError)
             (replay_world (Some "key") "[[[[ no civic issue ]]]]") in
  negative_signal "[[[[ no civic issue ]]]]" = true
  ∧ analyze_image w (SourceImage rgb_image) []
    = (Returned (VStr "Error: Unable to analyze image - maximum recursion depth exceeded"),
       [GenerateContent rgb_image]).
Proof.
  intros w. split; [reflexivity|].
  apply (decoder_fault_reported w (SourceImage rgb_image) [] [] rgb_image
           {| text := Returned "[[[[ no civic issue ]]]]" |}
           "[[[[ no civic issue ]]]]" RecursionError);
    try reflexivity. discriminate.
Defined.

(** X11. Whenever [json.loads] raises [JSONDecodeError] on the answer, and
    the answer has neither the sentinel nor a negative phrase, the analysis
    returns the text
    [Error: Unable to analyze image - name 'datetime' is not defined]: the
    fallback record is never what the caller gets. *)
Theorem undecodable_answer_reports_name_error
    (w : world) (source : image_source) (trace trace' : list event)
    (img : image) (response : model_response) (answer msg : string) :
  acquire_image w source trace = (Returned img, trace') →
  generate_content w img = Returned response →
  text response = Returned answer →
  has_sentinel answer = false →
  json_loads w (strip_fences (strip answer)) = Raised (JSONDecodeError msg) →
  negative_signal answer = false →
  analyze_image w source trace
  = (Returned (VStr "Error: Unable to analyze image - name 'datetime' is not defined"),
     (trace' ++ [GenerateContent img])%list).
Proof.
  intros Hacq Hgen Htext Hs Hl Hneg.
  rewrite (analyze_image_on_answer _ _ _ _ _ _ _ Hacq Hgen Htext).
  rewrite (normalize_undecodable _ _ _ _ Hs Hl), Hneg. reflexivity.
Qed.

Lemma undecodable_answer_example :
  analyze_image (replay_world (Some "key") "A pothole on Main Street.")
    (SourceStr "https://example.org/pothole.jpg") []
  = (Returned (VStr "Error: Unable to analyze image - name 'datetime' is not defined"),
     [HttpGet "https://example.org/pothole.jpg"; GenerateContent rgb_image]).
Proof.
  apply (undecodable_answer_reports_name_error
           (replay_world (Some "key") "A pothole on Main Street.")
           (SourceStr "https://example.org/pothole.jpg") []
           [HttpGet "https://example.org/pothole.jpg"] rgb_image
           {| text := Returned "A pothole on Main Street." |}
           "A pothole on Main Street." "Expecting value");
    reflexivity.
Defined.

(** ** The calls made and the results returned *)

Section Protocol.

Variable w : world.

Lemma analyze_image_trace source trace :
  ∃ added, (analyze_image w source trace).2 = (trace ++ added)%list
    ∧ (added = acquire_events source
       ∨ ∃ img, added = (acquire_events source ++ [GenerateContent img])%list).
Proof.
  pose proof (acquire_image_trace w source trace) as Hacq.
  unfold analyze_image, try_except, prog_bind, call, lift, ret.
  destruct (acquire_image w source trace) as [[img|e] t1]; cbn [snd] in Hacq;
    subst t1.
  - exists (acquire_events source ++ [GenerateContent img])%list.
    split; [|by eauto]. rewrite app_assoc.
    destruct (generate_content w img) as [response|e]; [|done].
    destruct (text response) as [answer|e]; [|done].
    by destruct (normalize _ _ answer).
  - exists (acquire_events source). by split; [|left].
Qed.

Lemma stage_acquire_events source :
  stage <$> acquire_events source = [] ∨ stage <$> acquire_events source = [1].
Proof.
  destruct source as [s| |]; cbn; [right|left|left]; [|done..].
  by destruct (is_url s).
Qed.

(** What [normalize] returns is the "no issue" message or a report. *)
Lemma normalize_result loads clock answer v :
  normalize loads clock answer = Returned v →
  v = VStr no_issue_message
  ∨ ∃ d : gmap string value,
      v = VDict d
      ∧ d !! "status" = Some (VStr "PENDING")
      ∧ d !! "timestamp" = Some (VStr clock)
      ∧ ∃ dep pri,
          d !! "department" = Some (VStr dep) ∧ dep ∈ valid_departments
          ∧ d !! "priority" = Some (VStr pri) ∧ pri ∈ valid_priorities.
Proof.
  intros Hn. destruct (has_sentinel answer) eqn:Hs.
  { rewrite normalize_sentinel in Hn by done. left. congruence. }
  destruct (loads (strip_fences (strip answer))) as [x|e] eqn:Hl.
  - rewrite (normalize_parsed _ _ _ _ Hs Hl) in Hn.
    destruct (dict_or_not x) as [[d ->]|Hnd].
    + destruct (validate_dict clock d)
        as (d' & Hd & Hdep & Hpri & _ & Hts & Hst & _).
      destruct (coerced_valid valid_departments "BUILDING" (d !! "department"))
        as (dep & Edep & Idep); [compute_done|].
      destruct (coerced_valid valid_priorities "MEDIUM" (d !! "priority"))
        as (pri & Epri & Ipri); [compute_done|].
      right. exists d'. split; [congruence|]. split; [done|]. split; [done|].
      exists dep, pri. by rewrite Hdep, Hpri, Edep, Epri.
    + destruct (validate_non_dict x Hnd) as [m Hm]. congruence.
  - destruct e as [msg| | | | | |];
      try (rewrite (normalize_decoder_fault _ _ _ _ Hs Hl) in Hn by done;
           discriminate).
    rewrite (normalize_undecodable _ _ _ _ Hs Hl) in Hn.
    destruct (negative_signal answer); [|discriminate].
    left. congruence.
Qed.

End Protocol.

(** X12. One call of [detect_municipal_issue] sets the client up at most
    once, then gets the picture with at most one download or file opening,
    then asks the model at most once, in this order and with no retry;
    nothing is loaded or asked before the client is set up. *)
Theorem call_protocol (w : world) (source : image_source) (trace : list event) :
  ∃ added,
    (detect_municipal_issue w source trace).2 = (trace ++ added)%list
    ∧ stage <$> added ∈ [ []; [0]; [0; 1]; [0; 2]; [0; 1; 2] ].
Proof.
  unfold detect_municipal_issue, try_except at 1.
  destruct (falsy (getenv w "GOOGLE_GEMINI_API_KEY")).
  { exists []. rewrite app_nil_r. split; [done|]. apply elem_of_cons. by left. }
  unfold prog_bind, call.
  set (key := default "" (getenv w "GOOGLE_GEMINI_API_KEY")).
  destruct (genai_setup w key) as [[]|e].
  - destruct (analyze_image_trace w source (trace ++ [GenaiSetup key])%list)
      as (added & Ht & Hadded).
    destruct (analyze_image_returns w source (trace ++ [GenaiSetup key])%list)
      as (v & t' & Hrun & _).
    rewrite Hrun in Ht |- *. cbn [snd] in Ht |- *. subst t'.
    exists (GenaiSetup key :: added). split.
    { by rewrite <- app_assoc. }
    rewrite fmap_cons. cbn [stage].
    destruct (stage_acquire_events source) as [Hst|Hst];
      destruct Hadded as [->|[img ->]]; rewrite ?fmap_app, Hst; cbn;
      rewrite !elem_of_cons; tauto.
  - exists [GenaiSetup key]. split; [done|]. cbn. rewrite !elem_of_cons. tauto.
Qed.

(** X13. What [detect_municipal_issue] returns is one of five things: the
    missing-key message, with nothing called; the "no issue" message; the
    error text of an exception; the error object of the exception that the
    set-up of the client raised, which has no [status]; or a report, which
    has status [PENDING], the time of the call, a department and a priority
    of the closed sets.  So a dict with a [status] is a report. *)
Theorem result_classification
    (w : world) (source : image_source) (trace trace' : list event)
    (v : value) :
  detect_municipal_issue w source trace = (Returned v, trace') →
  (v = VStr missing_key_message ∧ trace' = trace)
  ∨ v = VStr no_issue_message
  ∨ (∃ e, v = VStr (error_message e))
  ∨ (∃ e, v = VDict (error_object e) ∧ error_object e !! "status" = None
          ∧ genai_setup w (default "" (getenv w "GOOGLE_GEMINI_API_KEY"))
            = Raised e)
  ∨ (∃ d : gmap string value,
       v = VDict d
       ∧ d !! "status" = Some (VStr "PENDING")
       ∧ d !! "timestamp" = Some (VStr (now w))
       ∧ ∃ dep pri,
           d !! "department" = Some (VStr dep) ∧ dep ∈ valid_departments
           ∧ d !! "priority" = Some (VStr pri) ∧ pri ∈ valid_priorities).
Proof.
  unfold detect_municipal_issue, try_except at 1.
  destruct (falsy (getenv w "GOOGLE_GEMINI_API_KEY")).
  { unfold ret. intros [= <- <-]. by left. }
  unfold prog_bind, call.
  set (key := default "" (getenv w "GOOGLE_GEMINI_API_KEY")).
  destruct (genai_setup w key) as [[]|e] eqn:Hset.
  - destruct (analyze_image_returns w source (trace ++ [GenaiSetup key])%list)
      as (v0 & t0 & -> & Hv).
    intros [= <- <-]. destruct Hv as [[e ->]|[answer Ha]]; [by eauto 6|].
    apply normalize_result in Ha as [->|Hrep]; [by eauto|].
    by do 4 right.
  - unfold ret. intros [= <- <-]. do 3 right. left. exists e. by repeat split.
Qed.

Lemma result_classification_example :
  let w := replay_world (Some "key") fenced_fire_text in
  let report : gmap string value :=
    {[ "department" := VStr "FIRE"; "priority" := VStr "CRITICAL";
       "description" := VStr "x"; "timestamp" := VStr "2024-05-01T12:00:00";
       "status" := VStr "PENDING" ]} in
  detect_municipal_issue w (SourceStr "fire.jpg") []
  = (Returned (VDict report),
     [GenaiSetup "key"; FileOpen "fire.jpg"; GenerateContent rgb_image])
  ∧ ∃ dep pri,
      report !! "department" = Some (VStr dep) ∧ dep ∈ valid_departments
      ∧ report !! "priority" = Some (VStr pri) ∧ pri ∈ valid_priorities.
Proof.
  intros w report.
  assert (Hrun : detect_municipal_issue w (SourceStr "fire.jpg") []
                 = (Returned (VDict report),
                    [GenaiSetup "key"; FileOpen "fire.jpg";
                     GenerateContent rgb_image]))
    by (vm_compute; reflexivity).
  split; [exact Hrun|].
  destruct (result_classification _ _ _ _ _ Hrun)
    as [[H _]|[H|[[e H]|[(e & _ & _ & H)|(d & Hd & _ & _ & Hin)]]]];
    try discriminate.
  by injection Hd as ->.
Defined.

(** ** The route *)

Section RouteFacts.

Variable w : world.

(** The utility function returns. *)
Lemma detect_returns source trace :
  ∃ v trace', detect_municipal_issue w source trace = (Returned v, trace').
Proof.
  unfold detect_municipal_issue, try_except at 1.
  destruct (falsy _); [unfold ret; by eauto|].
  unfold prog_bind, call. destruct (genai_setup w _) as [[]|e].
  - destruct (analyze_image_returns w source
                (trace ++ [GenaiSetup (default "" (getenv w "GOOGLE_GEMINI_API_KEY"))])%list)
      as (v & t' & -> & _). by eauto.
  - unfold ret. by eauto.
Qed.

End RouteFacts.

(** X14. The route answers on every JSON object: with status 400 and the
    missing-field body, and without calling anything, when [image_url] is
    absent or falsy; with status 200 and what [detect_municipal_issue]
    returned in every other case, failures of the analysis included.  On a
    request body that is not an object it raises, for want of a [get]
    method. *)
Theorem route_status
    (w : world) (float_truthy : string → bool) (data : value)
    (trace : list event) :
  match data with
  | VDict d =>
      let image_url := default VNone (d !! "image_url") in
      if truthy float_truthy image_url
      then ∃ body trace',
             detect_municipal_issue w (source_of_value image_url) trace
             = (Returned body, trace')
             ∧ analyze_image_url w float_truthy data trace
               = (Returned (body, 200), trace')
      else analyze_image_url w float_truthy data trace
           = (Returned (VDict missing_image_url, 400), trace)
  | _ => ∃ msg, analyze_image_url w float_truthy data trace
                = (Raised (OtherError msg), trace)
  end.
Proof.
  destruct data as [| | | | | |d];
    try (unfold analyze_image_url, prog_bind, lift; cbn [py_get]; by eauto).
  cbv zeta.
  destruct (truthy float_truthy (default VNone (d !! "image_url"))) eqn:Ht;
    unfold analyze_image_url, prog_bind, lift; cbn [py_get]; rewrite Ht;
    cbn [negb]; [|done].
  destruct (detect_returns w (source_of_value (default VNone (d !! "image_url")))
              trace) as (body & trace' & Hrun).
  exists body, trace'. split; [done|]. unfold ret. by rewrite Hrun.
Qed.

(** X15. An [image_url] that is truthy but not a string (a number, a list,
    an object, [true]) is answered with status 200 and the error text of the
    unsupported argument; the client has been set up, nothing was loaded and
    the model was not called. *)
Theorem non_string_image_url
    (w : world) (float_truthy : string → bool) (d : gmap string value)
    (v : value) (key : string) (trace : list event) :
  d !! "image_url" = Some v →
  truthy float_truthy v = true →
  (∀ s, v ≠ VStr s) →
  getenv w "GOOGLE_GEMINI_API_KEY" = Some key → key ≠ "" →
  genai_setup w key = Returned () →
  analyze_image_url w float_truthy (VDict d) trace
  = (Returned
       (VStr "Error: Unable to analyze image - image_source must be a file path, URL, or PIL Image",
        200),
     (trace ++ [GenaiSetup key])%list).
Proof.
  intros Hv Ht Hns Hkey Hne Hset.
  unfold analyze_image_url, prog_bind, lift. cbn [py_get].
  rewrite Hv. cbn [default from_option id]. rewrite Ht. cbn [negb].
  rewrite (detect_with_key _ _ _ _ Hkey Hne Hset).
  destruct v; try done. by destruct (Hns s).
Qed.

Lemma non_string_image_url_example :
  analyze_image_url (replay_world (Some "key") "") (λ _, true)
    (VDict {[ "image_url" := VList [VStr "https://example.org/a.png"] ]}) []
  = (Returned
       (VStr "Error: Unable to analyze image - image_source must be a file path, URL, or PIL Image",
        200),
     [GenaiSetup "key"]).
Proof.
  apply (non_string_image_url _ _ _ (VList [VStr "https://example.org/a.png"]) "key");
    try reflexivity; discriminate.
Defined.

(** X16. A string [image_url] that does not start with [http://] or
    [https://] is opened as a file on the machine of the server, right after
    the client has been set up, and the answer has status 200 whatever the
    opening gives. *)
Theorem route_opens_local_path
    (w : world) (float_truthy : string → bool) (d : gmap string value)
    (s key : string) (trace : list event) :
  d !! "image_url" = Some (VStr s) → s ≠ "" →
  startswith "http://" s || startswith "https://" s = false →
  getenv w "GOOGLE_GEMINI_API_KEY" = Some key → key ≠ "" →
  genai_setup w key = Returned () →
  ∃ body rest,
    analyze_image_url w float_truthy (VDict d) trace
    = (Returned (body, 200),
       (trace ++ [GenaiSetup key; FileOpen s] ++ rest)%list)
    ∧ (rest = [] ∨ ∃ img, rest = [GenerateContent img]).
Proof.
  intros Hv Hs Hurl Hkey Hne Hset.
  unfold analyze_image_url, prog_bind, lift. cbn [py_get].
  rewrite Hv. cbn [default from_option id truthy source_of_value].
  rewrite (proj2 (String.eqb_neq _ _)) by done. cbn [negb].
  rewrite (detect_with_key _ _ _ _ Hkey Hne Hset).
  destruct (analyze_image_trace w (SourceStr s) (trace ++ [GenaiSetup key])%list)
    as (added & Ht & Hadded).
  destruct (analyze_image_returns w (SourceStr s) (trace ++ [GenaiSetup key])%list)
    as (body & t' & Hrun & _).
  rewrite Hrun in Ht |- *. cbn [snd] in Ht. subst t'. unfold ret.
  cbn [acquire_events] in Hadded. unfold is_url in Hadded. rewrite Hurl in Hadded.
  destruct Hadded as [->|[img ->]].
  - exists body, []. split; [|by left]. by rewrite <- app_assoc.
  - exists body, [GenerateContent img]. split; [|by eauto].
    by rewrite <- app_assoc.
Qed.

Lemma route_opens_local_path_example :
  ∃ body rest,
    analyze_image_url (replay_world (Some "key") "NON_CIVIC_ISSUE") (λ _, true)
      (VDict {[ "image_url" := VStr "/etc/hostname" ]}) []
    = (Returned (body, 200),
       ([] ++ [GenaiSetup "key"; FileOpen "/etc/hostname"] ++ rest)%list)
    ∧ (rest = [] ∨ ∃ img, rest = [GenerateContent img]).
Proof.
  apply (route_opens_local_path _ _ _ "/etc/hostname" "key");
    try reflexivity; discriminate.
Defined.

(** ** The sentinel test *)

Section SentinelFacts.

Lemma prefix_refl (p : string) : String.prefix p p = true.
Proof.
  induction p as [|c p IH]; [done|]. cbn [String.prefix].
  by destruct (ascii_dec c c).
Qed.

Lemma eqb_contains (s p : string) :
  String.eqb s p = true → contains p s = true.
Proof.
  intros ->%String.eqb_eq. destruct p; cbn [contains]; [done|].
  by rewrite prefix_refl.
Qed.

Lemma ends_on_text_tail (c : ascii) (p : string) :
  ends_on_text (String c p) = true → ends_on_text p = true.
Proof. by destruct p. Qed.

Lemma prefix_of_spaces (p ws : string) :
  String.prefix p ws = true → all_space ws = true →
  ends_on_text p = true → p = EmptyString.
Proof.
  revert ws. induction p as [|c p IH]; intros [|c' ws]; try done.
  cbn [String.prefix all_space]. destruct (ascii_dec c c') as [<-|]; [|done].
  intros Hp [Hc Hws]%andb_prop He.
  pose proof (IH _ Hp Hws (ends_on_text_tail _ _ He)) as ->.
  cbn in He. by rewrite Hc in He.
Qed.

Lemma prefix_app_spaces (x p ws : string) :
  ends_on_text p = true → all_space ws = true →
  String.prefix p (x +:+ ws) = String.prefix p x.
Proof.
  revert p. induction x as [|c x IH]; intros p He Hws.
  - rewrite app_empty. destruct p as [|c' p]; [by rewrite !prefix_empty|].
    destruct (String.prefix (String c' p) ws) eqn:Hp; [|done].
    by pose proof (prefix_of_spaces _ _ Hp Hws He).
  - rewrite app_cons. destruct p as [|c' p]; [done|].
    cbn [String.prefix]. destruct (ascii_dec c' c); [|done].
    apply IH; [|done]. by apply ends_on_text_tail in He.
Qed.

Lemma contains_all_space (p ws : string) :
  p ≠ EmptyString → ends_on_text p = true → all_space ws = true →
  contains p ws = false.
Proof.
  intros Hne He. induction ws as [|c ws IH]; intros Hws.
  - cbn [contains]. by destruct p.
  - cbn [contains]. destruct (String.prefix p (String c ws)) eqn:Hp.
    + by destruct (Hne (prefix_of_spaces _ _ Hp Hws He)).
    + apply IH. cbn [all_space] in Hws. by apply andb_prop in Hws as [_ ?].
Qed.

Lemma contains_app_spaces (r ws p : string) :
  p ≠ EmptyString → ends_on_text p = true → all_space ws = true →
  contains p (r +:+ ws) = contains p r.
Proof.
  intros Hne He Hws. induction r as [|c r IH].
  - rewrite app_empty, contains_all_space by done.
    cbn [contains]. by destruct p.
  - rewrite app_cons. cbn [contains]. rewrite IH. f_equal.
    rewrite <- app_cons. by apply prefix_app_spaces.
Qed.

Lemma rstrip_decompose (s : string) :
  ∃ ws, all_space ws = true ∧ s = rstrip s +:+ ws.
Proof.
  induction s as [|c s (ws & Hws & IH)]; [by exists EmptyString|].
  cbn [rstrip]. destruct (rstrip s) as [|c' r] eqn:Hr.
  - rewrite app_empty in IH. subst ws. destruct (isspace c) eqn:Hc.
    + exists (String c s). split; [|done]. cbn [all_space]. by rewrite Hc.
    + exists s. by split.
  - exists ws. split; [done|]. by rewrite app_cons, <- IH.
Qed.

Lemma contains_rstrip (p s : string) :
  p ≠ EmptyString → ends_on_text p = true →
  contains p (rstrip s) = contains p s.
Proof.
  intros Hne He. destruct (rstrip_decompose s) as (ws & Hws & Hs).
  rewrite Hs at 2. by rewrite contains_app_spaces.
Qed.

Lemma contains_lstrip (c0 : ascii) (p s : string) :
  isspace c0 = false →
  contains (String c0 p) (lstrip s) = contains (String c0 p) s.
Proof.
  intros Hc0. induction s as [|c s IH]; [done|].
  cbn [lstrip]. destruct (isspace c) eqn:Hc; [|done].
  rewrite IH. cbn [contains String.prefix].
  destruct (ascii_dec c0 c) as [->|]; [congruence|done].
Qed.

End SentinelFacts.

(** The first test of [normalize] is a search in the untrimmed answer. *)
Lemma has_sentinel_is_containment (text : string) :
  has_sentinel text = contains NON_CIVIC_ISSUE text.
Proof.
  unfold has_sentinel.
  transitivity (contains NON_CIVIC_ISSUE (strip text)).
  - destruct (String.eqb (strip text) NON_CIVIC_ISSUE) eqn:He; [|done].
    by rewrite (eqb_contains _ _ He).
  - unfold strip. rewrite contains_rstrip by done.
    by apply (contains_lstrip "N" "ON_CIVIC_ISSUE").
Qed.

(** X17. The first test of [normalize] comes down to this: the answer has
    [NON_CIVIC_ISSUE] somewhere inside.  The comparison with the whole
    trimmed text adds nothing to the search, and trimming takes nothing
    away from it; so any answer with the sentinel inside gives the
    "no issue" message. *)
Theorem sentinel_test_is_containment (text : string) :
  (String.eqb (strip text) NON_CIVIC_ISSUE
   || contains NON_CIVIC_ISSUE (strip text))
  = contains NON_CIVIC_ISSUE text
  ∧ (contains NON_CIVIC_ISSUE text = true →
     ∀ loads clock,
       normalize loads clock text = Returned (VStr no_issue_message)).
Proof.
  split; [apply has_sentinel_is_containment|]. intros Hin loads clock.
  apply normalize_sentinel. by rewrite has_sentinel_is_containment.
Qed.

Lemma sentinel_anywhere_example :
  normalize Json.loads "2024-05-01T12:00:00"
    ("{" +:+ quoted "department" +:+ ":" +:+ quoted "ROADS" +:+ ","
     +:+ quoted "description" +:+ ":" +:+ quoted "sign reads NON_CIVIC_ISSUE" +:+ "}  ")
  = Returned (VStr no_issue_message).
Proof.
  apply (proj2 (sentinel_test_is_containment _)). reflexivity.
Defined.

(** X20. For every body: an answer made of a fenced block tagged [json]
    around the body, with any white space before and after, that has no
    sentinel inside and whose body decodes to an object, gives the report
    that validation makes of that object. *)
Theorem fenced_object_is_reported
    (loads : string → outcome value) (clock ws1 ws2 body : string)
    (d : gmap string value) :
  all_space ws1 = true → all_space ws2 = true →
  contains NON_CIVIC_ISSUE (ws1 +:+ "```json" +:+ body +:+ "```" +:+ ws2)
  = false →
  loads body = Returned (VDict d) →
  ∃ d' : gmap string value,
    normalize loads clock (ws1 +:+ "```json" +:+ body +:+ "```" +:+ ws2)
    = Returned (VDict d')
    ∧ _validate_and_enhance_result clock (VDict d) = Returned (VDict d').
Proof.
  intros H1 H2 Hs Hl.
  rewrite <- has_sentinel_is_containment in Hs.
  rewrite (normalize_parsed _ _ _ (VDict d) Hs)
    by (by rewrite strip_fenced_block).
  destruct (validate_dict clock d) as (d' & Hd & _). by exists d'.
Qed.

Lemma fenced_object_example :
  let body := String newline
                ("{" +:+ quoted "department" +:+ ":" +:+ quoted "WATER" +:+ "}"
                 +:+ String newline EmptyString) in
  ∃ d' : gmap string value,
    normalize Json.loads "2024-05-01T12:00:00"
      ("  " +:+ "```json" +:+ body +:+ "```" +:+ String newline EmptyString)
    = Returned (VDict d')
    ∧ _validate_and_enhance_result "2024-05-01T12:00:00"
        (VDict {[ "department" := VStr "WATER" ]}) = Returned (VDict d').
Proof.
  intros body.
  apply (fenced_object_is_reported Json.loads _ "  " (String newline EmptyString)
           body {[ "department" := VStr "WATER" ]});
    vm_compute; reflexivity.
Defined.

(** ** The encoded file *)

Section Base64Facts.

Local Open Scope nat_scope.

Lemma get_elem_of (n : nat) (s : string) (c : ascii) :
  String.get n s = Some c → c ∈ list_ascii_of_string s.
Proof.
  revert n. induction s as [|x s IH]; intros [|n]; cbn; try done.
  - intros [= ->]. apply elem_of_cons. by left.
  - intros H. apply elem_of_cons. right. by apply (IH n).
Qed.

Lemma b64_char_alphabet (n : nat) :
  b64_char n ∈ list_ascii_of_string b64_alphabet.
Proof.
  unfold b64_char. destruct (String.get n b64_alphabet) as [c|] eqn:Hg.
  - by apply get_elem_of in Hg.
  - cbn. apply elem_of_cons. by left.
Qed.

Lemma b64encode_chars (n : nat) (data : string) (c : ascii) :
  String.length data ≤ n →
  c ∈ list_ascii_of_string (b64encode data) →
  c ∈ list_ascii_of_string b64_alphabet ∨ c = "="%char.
Proof.
  revert data. induction n as [|n IH]; intros data Hn.
  { destruct data; [|cbn in Hn; lia]. cbn. by intros ?%elem_of_nil. }
  destruct data as [|a [|b [|x rest]]]; cbn [b64encode list_ascii_of_string].
  - by intros ?%elem_of_nil.
  - rewrite !elem_of_cons.
    intros [->|[->|[->|[->|?%elem_of_nil]]]];
      first [left; apply b64_char_alphabet | by right | done].
  - rewrite !elem_of_cons.
    intros [->|[->|[->|[->|?%elem_of_nil]]]];
      first [left; apply b64_char_alphabet | by right | done].
  - rewrite !elem_of_cons.
    intros [->|[->|[->|[->|Hrest]]]]; try (left; apply b64_char_alphabet).
    apply (IH rest); [cbn in Hn; lia | done].
Qed.

Lemma b64encode_length (n : nat) (data : string) :
  String.length data ≤ n →
  String.length (b64encode data) = 4 * ((String.length data + 2) / 3).
Proof.
  revert data. induction n as [|n IH]; intros data Hn.
  { by destruct data; [|cbn in Hn; lia]. }
  destruct data as [|a [|b [|x rest]]]; try done.
  cbn [b64encode String.length] in *. rewrite (IH rest) by lia.
  replace (S (S (S (String.length rest))) + 2)
    with (1 * 3 + (String.length rest + 2)) by lia.
  rewrite Nat.div_add_l by lia. lia.
Qed.

End Base64Facts.

(** X18. [encode_image] opens the file once and calls nothing else.  When
    the read fails it raises what the read raised.  When the read gives [n]
    bytes it returns a text of [4 * ceil(n / 3)] characters, each a letter,
    digit, [+] or [/] of the base64 alphabet or the padding [=], all ASCII;
    an empty file gives the empty text. *)
Theorem encode_image_result
    (read_file : string → outcome string) (image_path : string)
    (trace : list event) :
  match read_file image_path with
  | Returned data =>
      encode_image read_file image_path trace
      = (Returned (b64encode data), (trace ++ [FileOpen image_path])%list)
      ∧ String.length (b64encode data)
        = (4 * ((String.length data + 2) / 3))%nat
      ∧ (data = EmptyString → b64encode data = EmptyString)
      ∧ ∀ c, c ∈ list_ascii_of_string (b64encode data) →
             (c ∈ list_ascii_of_string b64_alphabet ∨ c = "="%char)
             ∧ (nat_of_ascii c < 128)%nat
  | Raised e =>
      encode_image read_file image_path trace
      = (Raised e, (trace ++ [FileOpen image_path])%list)
  end.
Proof.
  unfold encode_image, try_except, prog_bind, call, ret, raise.
  destruct (read_file image_path) as [data|e]; [|done].
  split; [done|]. split; [by apply (b64encode_length _ _ (le_n _))|].
  split; [by intros ->|]. intros c Hc.
  pose proof (b64encode_chars _ _ _ (le_n _) Hc) as Hin.
  split; [exact Hin|]. apply Nat.ltb_lt.
  destruct Hin as [Hin| ->]; [|reflexivity].
  apply list_elem_of_In in Hin. clear Hc. revert c Hin.
  apply forallb_forall. vm_compute. reflexivity.
Qed.

Lemma encode_image_examples :
  encode_image (λ _, Returned "Man") "a.bin" [] = (Returned "TWFu", [FileOpen "a.bin"])
  ∧ encode_image (λ _, Returned "Ma") "a.bin" [] = (Returned "TWE=", [FileOpen "a.bin"])
  ∧ encode_image (λ _, Raised (OtherError "No such file or directory")) "a.bin" []
    = (Raised (OtherError "No such file or directory"), [FileOpen "a.bin"]).
Proof.
  split; [|split].
  - apply (encode_image_result (λ _, Returned "Man") "a.bin" []).
  - apply (encode_image_result (λ _, Returned "Ma") "a.bin" []).
  - apply (encode_image_result
             (λ _, Raised (OtherError "No such file or directory")) "a.bin" []).
Defined.

Section Base64Injective.

Local Open Scope nat_scope.

Lemma b64_char_not_padding (n : nat) : b64_char n ≠ "="%char.
Proof.
  intros H. pose proof (b64_char_alphabet n) as Hin. rewrite H in Hin.
  apply list_elem_of_In in Hin. revert Hin. vm_compute. intuition discriminate.
Qed.

Lemma b64_char_inj (i j : nat) :
  i < 64 → j < 64 → b64_char i = b64_char j → i = j.
Proof.
  intros Hi Hj Heq.
  assert (Hall : forallb (λ i, forallb (λ j,
             implb (Ascii.eqb (b64_char i) (b64_char j)) (i =? j))
             (seq 0 64)) (seq 0 64) = true) by (vm_compute; reflexivity).
  rewrite forallb_forall in Hall.
  specialize (Hall i ltac:(apply in_seq; lia)).
  rewrite forallb_forall in Hall.
  specialize (Hall j ltac:(apply in_seq; lia)).
  rewrite Heq, Ascii.eqb_refl in Hall. by apply Nat.eqb_eq.
Qed.

Lemma nat_of_ascii_inj (a b : ascii) : nat_of_ascii a = nat_of_ascii b → a = b.
Proof.
  intros H. rewrite <- (ascii_nat_embedding a), <- (ascii_nat_embedding b).
  by rewrite H.
Qed.

Lemma sextets_bound (a b c : ascii) :
  sextet1 a < 64 ∧ sextet2 a b < 64 ∧ sextet3 b c < 64 ∧ sextet4 c < 64.
Proof.
  unfold sextet1, sextet2, sextet3, sextet4.
  pose proof (nat_ascii_bounded a). pose proof (nat_ascii_bounded b).
  pose proof (nat_ascii_bounded c).
  pose proof (Nat.mod_upper_bound (nat_of_ascii a) 4).
  pose proof (Nat.mod_upper_bound (nat_of_ascii b) 16).
  pose proof (Nat.mod_upper_bound (nat_of_ascii c) 64).
  pose proof (Nat.Div0.div_lt_upper_bound (nat_of_ascii a) 4 64).
  pose proof (Nat.Div0.div_lt_upper_bound (nat_of_ascii b) 16 16).
  pose proof (Nat.Div0.div_lt_upper_bound (nat_of_ascii c) 64 4).
  lia.
Qed.

(** Two bytes with the same quotient and remainder are the same byte. *)
Lemma byte_eq (a a' : ascii) (k : nat) :
  k ≠ 0 →
  nat_of_ascii a / k = nat_of_ascii a' / k →
  nat_of_ascii a mod k = nat_of_ascii a' mod k → a = a'.
Proof.
  intros Hk Hq Hr. apply nat_of_ascii_inj.
  rewrite (Nat.div_mod_eq (nat_of_ascii a) k), (Nat.div_mod_eq (nat_of_ascii a') k).
  by rewrite Hq, Hr.
Qed.

(** A sum [hi * k + lo] with [lo < k] gives back its two parts. *)
Lemma split_sum (k hi lo hi' lo' : nat) :
  lo < k → lo' < k → hi * k + lo = hi' * k + lo' → hi = hi' ∧ lo = lo'.
Proof.
  intros Hlo Hlo' Heq.
  assert (hi = hi') as ->.
  { apply (f_equal (λ x, x / k)) in Heq.
    rewrite !Nat.div_add_l, !Nat.div_small in Heq by lia. lia. }
  split; [done|lia].
Qed.

Lemma sextet12_inj (a b a' b' : ascii) :
  sextet1 a = sextet1 a' → sextet2 a b = sextet2 a' b' →
  a = a' ∧ nat_of_ascii b / 16 = nat_of_ascii b' / 16.
Proof.
  unfold sextet1, sextet2. intros H1 H2.
  pose proof (nat_ascii_bounded b). pose proof (nat_ascii_bounded b').
  apply split_sum in H2 as [Hhi Hlo];
    [|apply Nat.Div0.div_lt_upper_bound; lia..].
  split; [by apply (byte_eq a a' 4)|done].
Qed.

Lemma sextet23_inj (b c b' c' : ascii) :
  nat_of_ascii b / 16 = nat_of_ascii b' / 16 →
  sextet3 b c = sextet3 b' c' →
  b = b' ∧ nat_of_ascii c / 64 = nat_of_ascii c' / 64.
Proof.
  unfold sextet3. intros H1 H2.
  pose proof (nat_ascii_bounded c). pose proof (nat_ascii_bounded c').
  apply split_sum in H2 as [Hhi Hlo];
    [|apply Nat.Div0.div_lt_upper_bound; lia..].
  split; [by apply (byte_eq b b' 16)|done].
Qed.

Local Ltac sextets_eq :=
  repeat match goal with
  | H : b64_char _ = "="%char |- _ => by destruct (b64_char_not_padding _ H)
  | H : "="%char = b64_char _ |- _ =>
      symmetry in H; by destruct (b64_char_not_padding _ H)
  | H : b64_char _ = b64_char _ |- _ =>
      apply b64_char_inj in H;
      [| first [ apply (proj1 (sextets_bound _ zero zero))
               | apply (proj1 (proj2 (sextets_bound _ _ zero)))
               | apply (proj1 (proj2 (proj2 (sextets_bound zero _ _))))
               | apply (proj2 (proj2 (proj2 (sextets_bound zero zero _)))) ] ..]
  end.

Local Ltac bytes_eq :=
  repeat match goal with
  | H1 : sextet1 ?a = sextet1 ?a', H2 : sextet2 ?a ?b = sextet2 ?a' ?b' |- _ =>
      let Hb := fresh "Hb" in
      destruct (sextet12_inj _ _ _ _ H1 H2) as [? Hb]; clear H1 H2; subst a'
  | Hb : nat_of_ascii ?b / 16 = nat_of_ascii ?b' / 16,
    H3 : sextet3 ?b ?c = sextet3 ?b' ?c' |- _ =>
      let Hc := fresh "Hc" in
      destruct (sextet23_inj _ _ _ _ Hb H3) as [? Hc]; clear Hb H3;
      try subst b'
  | Hc : nat_of_ascii ?c / 64 = nat_of_ascii ?c' / 64,
    H4 : sextet4 ?c = sextet4 ?c' |- _ =>
      pose proof (byte_eq c c' 64 ltac:(lia) Hc H4); clear Hc H4; subst c'
  end.

Lemma b64encode_inj_upto (n : nat) (data data' : string) :
  String.length data ≤ n → b64encode data = b64encode data' → data = data'.
Proof.
  revert data data'. induction n as [|n IH]; intros data data' Hn.
  { destruct data; [|cbn in Hn; lia].
    by destruct data' as [|a [|b [|c rest]]]. }
  destruct data as [|a [|b [|c rest]]], data' as [|a' [|b' [|c' rest']]];
    cbn [b64encode]; try done; intros Heq; inversion Heq; clear Heq;
    sextets_eq; bytes_eq; try done.
  do 3 f_equal. apply IH; [cbn in Hn; lia|done].
Qed.

End Base64Injective.

(** X19. The encoding loses nothing: two files with different bytes never
    get the same encoded text. *)
Theorem encode_image_lossless
    (read_file : string → outcome string) (path path' : string)
    (trace : list event) (data data' : string) :
  read_file path = Returned data → read_file path' = Returned data' →
  data ≠ data' →
  (encode_image read_file path trace).1
  ≠ (encode_image read_file path' trace).1.
Proof.
  unfold encode_image, try_except, prog_bind, call, ret.
  intros -> -> Hne. cbn [fst]. intros [= H].
  by apply Hne, (b64encode_inj_upto _ _ _ (le_n _)).
Qed.

Lemma encode_image_lossless_example :
  let read_file := λ p : string,
    Returned (if String.eqb p "a.bin" then "Ma" else "Ma" +:+ String zero "") in
  (encode_image read_file "a.bin" []).1 = Returned "TWE="
  ∧ (encode_image read_file "b.bin" []).1 = Returned "TWEA"
  ∧ (encode_image read_file "a.bin" []).1
    ≠ (encode_image read_file "b.bin" []).1.
Proof.
  intros read_file. split; [reflexivity|]. split; [reflexivity|].
  apply (encode_image_lossless read_file "a.bin" "b.bin" []
           "Ma" ("Ma" +:+ String zero "")); [reflexivity..|discriminate].
Defined.

(** ** The outermost call, stage by stage *)

(** C7. [detect_municipal_issue] returns on every world and every argument,
    a [str] or a [dict]: no exception leaves it.  Stage by stage:
    - without the key, or with an empty one, it returns the missing-key
      message and no collaborator has been called;
    - an exception [e] of the set-up of the client becomes the object with
      [str(e)] under [error] and the fixed text under [message], and nothing
      is loaded or asked;
    - an exception [e] of the image loading, of the model call, of the read
      of [response.text] or of the normalisation (decoder, validation,
      fallback) becomes the text [Error: Unable to analyze image - ] followed
      by [str(e)]; after a failed loading the model is not called;
    - otherwise it returns what the normalisation returned. *)
Theorem detect_municipal_issue_never_raises
    (w : world) (source : image_source) (trace : list event) :
  (∃ v trace',
     detect_municipal_issue w source trace = (Returned v, trace')
     ∧ ((∃ s, v = VStr s) ∨ (∃ d, v = VDict d)))
  ∧ match getenv w "GOOGLE_GEMINI_API_KEY" with
    | None =>
        detect_municipal_issue w source trace
        = (Returned (VStr "Error: Google Gemini API key not found."), trace)
    | Some key =>
        if String.eqb key ""
        then detect_municipal_issue w source trace
             = (Returned (VStr "Error: Google Gemini API key not found."), trace)
        else
          match genai_setup w key with
          | Raised e =>
              detect_municipal_issue w source trace
              = (Returned (VDict
                   {[ "error" := VStr (str_exn e);
                      "message" := VStr "Failed to analyze the image. Please check the URL or server logs." ]}),
                 (trace ++ [GenaiSetup key])%list)
          | Returned _ =>
              match acquire_image w source (trace ++ [GenaiSetup key])%list with
              | (Raised e, loaded) =>
                  detect_municipal_issue w source trace
                  = (Returned (VStr ("Error: Unable to analyze image - "
                                     +:+ str_exn e)), loaded)
                  ∧ ∃ added,
                      loaded = (trace ++ GenaiSetup key :: added)%list
                      ∧ ∀ img, GenerateContent img ∉ added
              | (Returned img, loaded) =>
                  let asked := (loaded ++ [GenerateContent img])%list in
                  match generate_content w img with
                  | Raised e =>
                      detect_municipal_issue w source trace
                      = (Returned (VStr ("Error: Unable to analyze image - "
                                         +:+ str_exn e)), asked)
                  | Returned response =>
                      match text response with
                      | Raised e =>
                          detect_municipal_issue w source trace
                          = (Returned (VStr ("Error: Unable to analyze image - "
                                             +:+ str_exn e)), asked)
                      | Returned answer =>
                          match normalize (json_loads w) (now w) answer with
                          | Raised e =>
                              detect_municipal_issue w source trace
                              = (Returned (VStr ("Error: Unable to analyze image - "
                                                 +:+ str_exn e)), asked)
                          | Returned v =>
                              detect_municipal_issue w source trace
                              = (Returned v, asked)
                          end
                      end
                  end
              end
          end
    end.
Proof.
  split.
  { unfold detect_municipal_issue, try_except at 1.
    destruct (falsy (getenv w "GOOGLE_GEMINI_API_KEY")).
    { unfold ret. by eauto 6. }
    unfold prog_bind, call.
    destruct (genai_setup w _) as [[]|e]; [|unfold ret; by eauto 6].
    destruct (analyze_image_returns w source
                (trace ++ [GenaiSetup (default "" (getenv w "GOOGLE_GEMINI_API_KEY"))])%list)
      as (v & t' & -> & Hv).
    exists v, t'. split; [reflexivity|].
    destruct Hv as [[e ->]|[answer Ha]]; [by eauto|].
    by apply normalize_returns_str_or_dict in Ha. }
  unfold detect_municipal_issue, try_except at 1.
  destruct (getenv w "GOOGLE_GEMINI_API_KEY") as [key|]; cbn [falsy];
    [|reflexivity].
  destruct (String.eqb key ""); [reflexivity|].
  change (default "" (Some key)) with key. cbv zeta.
  unfold prog_bind at 1, call.
  destruct (genai_setup w key) as [[]|e]; [|reflexivity].
  pose proof (acquire_image_trace w source (trace ++ [GenaiSetup key])%list)
    as Hloaded.
  unfold analyze_image, try_except, prog_bind, call, lift, ret.
  destruct (acquire_image w source (trace ++ [GenaiSetup key])%list)
    as [[img|e] loaded].
  - destruct (generate_content w img) as [response|e]; [|reflexivity].
    destruct (text response) as [answer|e]; [|reflexivity].
    by destruct (normalize (json_loads w) (now w) answer).
  - split; [reflexivity|]. exists (acquire_events source). split.
    + cbn [snd] in Hloaded. by rewrite Hloaded, <- app_assoc.
    + intros img. destruct source as [s| |]; cbn [acquire_events].
      * rewrite list_elem_of_singleton. by destruct (is_url s).
      * apply not_elem_of_nil.
      * apply not_elem_of_nil.
Qed.

Lemma detect_municipal_issue_stages :
  let url := SourceStr "https://example.org/pothole.jpg" in
  detect_municipal_issue
    (scripted_world None (Returned ()) page (Returned ()) (answers fenced_fire_text))
    url []
  = (Returned (VStr "Error: Google Gemini API key not found."), [])
  ∧ detect_municipal_issue
      (scripted_world (Some "") (Returned ()) page (Returned ()) (answers fenced_fire_text))
      url []
    = (Returned (VStr "Error: Google Gemini API key not found."), [])
  ∧ detect_municipal_issue
      (scripted_world (Some "key") (Raised (OtherError "invalid API key")) page
         (Returned ()) (answers fenced_fire_text))
      url []
    = (Returned (VDict
         {[ "error" := VStr "invalid API key";
            "message" := VStr "Failed to analyze the image. Please check the URL or server logs." ]}),
       [GenaiSetup "key"])
  ∧ detect_municipal_issue
      (scripted_world (Some "key") (Returned ()) page
         (Raised (OtherError "404 Client Error: Not Found"))
         (answers fenced_fire_text))
      url []
    = (Returned (VStr "Error: Unable to analyze image - 404 Client Error: Not Found"),
       [GenaiSetup "key"; HttpGet "https://example.org/pothole.jpg"])
  ∧ detect_municipal_issue
      (scripted_world (Some "key") (Returned ()) page (Returned ())
         (Raised (OtherError "429 quota exceeded")))
      url []
    = (Returned (VStr "Error: Unable to analyze image - 429 quota exceeded"),
       [GenaiSetup "key"; HttpGet "https://example.org/pothole.jpg";
        GenerateContent rgb_image])
  ∧ detect_municipal_issue
      (scripted_world (Some "key") (Returned ()) page (Returned ())
         (Returned {| text := Raised (ValueError "the response has no text") |}))
      url []
    = (Returned (VStr "Error: Unable to analyze image - the response has no text"),
       [GenaiSetup "key"; HttpGet "https://example.org/pothole.jpg";
        GenerateContent rgb_image])
  ∧ detect_municipal_issue
      (scripted_world (Some "key") (Returned ()) page (Returned ()) (answers "[1, 2]"))
      url []
    = (Returned (VStr "Error: Unable to analyze image - list indices must be integers or slices, not str"),
       [GenaiSetup "key"; HttpGet "https://example.org/pothole.jpg";
        GenerateContent rgb_image])
  ∧ detect_municipal_issue
      (scripted_world (Some "key") (Returned ()) page (Returned ())
         (answers "NON_CIVIC_ISSUE"))
      url []
    = (Returned (VStr no_issue_message),
       [GenaiSetup "key"; HttpGet "https://example.org/pothole.jpg";
        GenerateContent rgb_image])
  ∧ detect_municipal_issue
      (scripted_world (Some "key") (Returned ()) page (Returned ())
         (answers "A pothole on Main Street."))
      url []
    = (Returned (VStr "Error: Unable to analyze image - name 'datetime' is not defined"),
       [GenaiSetup "key"; HttpGet "https://example.org/pothole.jpg";
        GenerateContent rgb_image])
  ∧ detect_municipal_issue
      (scripted_world (Some "key") (Returned ()) page (Returned ())
         (answers fenced_fire_text))
      url []
    = (Returned (VDict
         {[ "department" := VStr "FIRE"; "priority" := VStr "CRITICAL";
            "description" := VStr "x";
            "timestamp" := VStr "2024-05-01T12:00:00";
            "status" := VStr "PENDING" ]}),
       [GenaiSetup "key"; HttpGet "https://example.org/pothole.jpg";
        GenerateContent rgb_image]).
Proof.
  intros url.
  split; [exact (proj2 (detect_municipal_issue_never_raises
      (scripted_world None (Returned ()) page (Returned ()) (answers fenced_fire_text))
      url []))|].
  split; [exact (proj2 (detect_municipal_issue_never_raises
      (scripted_world (Some "") (Returned ()) page (Returned ()) (answers fenced_fire_text))
      url []))|].
  split; [exact (proj2 (detect_municipal_issue_never_raises
      (scripted_world (Some "key") (Raised (OtherError "invalid API key")) page
         (Returned ()) (answers fenced_fire_text))
      url []))|].
  split; [exact (proj1 (proj2 (detect_municipal_issue_never_raises
      (scripted_world (Some "key") (Returned ()) page
         (Raised (OtherError "404 Client Error: Not Found"))
         (answers fenced_fire_text))
      url [])))|].
  split; [exact (proj2 (detect_municipal_issue_never_raises
      (scripted_world (Some "key") (Returned ()) page (Returned ())
         (Raised (OtherError "429 quota exceeded")))
      url []))|].
  split; [exact (proj2 (detect_municipal_issue_never_raises
      (scripted_world (Some "key") (Returned ()) page (Returned ())
         (Returned {| text := Raised (ValueError "the response has no text") |}))
      url []))|].
  split; [exact (proj2 (detect_municipal_issue_never_raises
      (scripted_world (Some "key") (Returned ()) page (Returned ()) (answers "[1, 2]"))
      url []))|].
  split; [exact (proj2 (detect_municipal_issue_never_raises
      (scripted_world (Some "key") (Returned ()) page (Returned ())
         (answers "NON_CIVIC_ISSUE"))
      url []))|].
  split; [exact (proj2 (detect_municipal_issue_never_raises
      (scripted_world (Some "key") (Returned ()) page (Returned ())
         (answers "A pothole on Main Street."))
      url []))|].
  exact (proj2 (detect_municipal_issue_never_raises
      (scripted_world (Some "key") (Returned ()) page (Returned ())
         (answers fenced_fire_text))
      url [])).
Defined.
